(** * deskaid/tools/edit_file.py: the match-validate-patch-commit pipeline

    A shallow embedding of [edit_file_content] and of the helpers it calls
    ([apply_edit], [write_text_content], [detect_line_endings],
    [find_similar_file], [debug_string_comparison]), together with the
    Python string methods and the [os] calls they use.

    Conventions.
    - A Python [str] is a list of characters; characters are the code
      points below 256 ([ascii]).  Files hold text: the UTF-8 codec is a
      bijection between such text and its bytes and is not modelled.
    - The file tree is a finite map from path names to nodes.  Path names
      are compared literally, there are no symbolic links and no
      permissions.  The keys of the tree are plainly spelled paths; the
      [os] calls below are what the host does on a plainly spelled path
      ([plain_path]: absolute, no empty, [.] or [..] component, no NUL,
      no overlong name).
      A statement about a path that need not be in the tree assumes
      that the path is plainly spelled.
    - The host is POSIX: the separator is [/] and [os.linesep] is the
      line feed, so a text-mode write stores the characters it is given;
      a text-mode read applies Python's universal-newline translation.
    - [commit_changes], [get_edit_snippet] (both of [..common]) and
      [os.path.abspath] are parameters of the development; the two
      collaborators are taken to return, not to raise.
    - Modification times and read instants are only compared, never
      computed with: they are integers. *)

From stdpp Require Import gmap strings list fin_maps.
From Stdlib Require Import Ascii ZArith DecimalString Lia.

Local Open Scope list_scope.

(** Python [str]. *)
Abbreviation str := (list ascii).

Definition lit (s : string) : str := String.list_ascii_of_string s.

Definition LF : ascii := ascii_of_nat 10.
Definition CR : ascii := ascii_of_nat 13.
Definition nl : str := [LF].
Definition crlf : str := [CR; LF].

(* ===================================================================== *)
(** * Python string methods *)
(* ===================================================================== *)

Module Py.

(** [a == b] on characters and on strings. *)
Definition ch_eqb (a b : ascii) : bool := Ascii.eqb a b.
Arguments ch_eqb : simpl never.

Fixpoint eqb (a b : str) : bool :=
  match a, b with
  | [], [] => true
  | x :: a', y :: b' => ch_eqb x y && eqb a' b'
  | _, _ => false
  end.

(** [s.startswith(p)]. *)
Fixpoint startswith (p s : str) : bool :=
  match p, s with
  | [], _ => true
  | _ :: _, [] => false
  | x :: p', y :: s' => ch_eqb x y && startswith p' s'
  end.

(** [s.endswith(p)]. *)
Definition endswith (p s : str) : bool := startswith (rev p) (rev s).

(** [s.find(sub)]: the lowest index at which [sub] occurs, if any. *)
Fixpoint find (s sub : str) : option nat :=
  if startswith sub s then Some 0
  else match s with
       | [] => None
       | _ :: s' => option_map S (find s' sub)
       end.

(** [sub in s]. *)
Definition contains (sub s : str) : bool :=
  match find s sub with Some _ => true | None => false end.

(** [s.count(sub)] for a non-empty [sub] scans left to right and counts
    non-overlapping occurrences; [skip] is the number of characters still
    covered by the occurrence counted last. *)
Fixpoint count_from (skip : nat) (s sub : str) : nat :=
  match s with
  | [] => 0
  | _ :: s' =>
      match skip with
      | S k => count_from k s' sub
      | O => if startswith sub s
             then S (count_from (length sub - 1) s' sub)
             else count_from 0 s' sub
      end
  end.

Definition count (s sub : str) : nat :=
  match sub with
  | [] => length s + 1
  | _ :: _ => count_from 0 s sub
  end.

(** [s.replace(old, new, 1)]: only the first occurrence is replaced; an
    empty [old] matches at index 0. *)
Fixpoint replace_first (s old new : str) : str :=
  if startswith old s then new ++ drop (length old) s
  else match s with
       | [] => []
       | c :: s' => c :: replace_first s' old new
       end.

(** [s.replace(old, new)]: every non-overlapping occurrence, left to
    right. *)
Fixpoint replace_from (skip : nat) (s old new : str) : str :=
  match s with
  | [] => []
  | c :: s' =>
      match skip with
      | S k => replace_from k s' old new
      | O => if startswith old s
             then new ++ replace_from (length old - 1) s' old new
             else c :: replace_from 0 s' old new
      end
  end.

Definition replace (s old new : str) : str :=
  match old with
  | [] => new ++ flat_map (fun c => c :: new) s
  | _ :: _ => replace_from 0 s old new
  end.

(** [s.split(sep)] for a non-empty [sep]; the result is never empty. *)
Fixpoint split_from (skip : nat) (s sep : str) : list str :=
  match s with
  | [] => [[]]
  | c :: s' =>
      match skip with
      | S k => split_from k s' sep
      | O => if startswith sep s
             then [] :: split_from (length sep - 1) s' sep
             else match split_from 0 s' sep with
                  | [] => [[c]]
                  | h :: t => (c :: h) :: t
                  end
      end
  end.

(** [s.split(sep)] raises [ValueError("empty separator")] on an empty
    [sep]: [None] stands for that exception. *)
Definition split (s sep : str) : option (list str) :=
  match sep with
  | [] => None
  | _ :: _ => Some (split_from 0 s sep)
  end.

(** [s.split("\n")]. *)
Definition lines (s : str) : list str := split_from 0 s nl.

(** [sep.join(l)]. *)
Fixpoint join (sep : str) (l : list str) : str :=
  match l with
  | [] => []
  | [x] => x
  | x :: l' => x ++ sep ++ join sep l'
  end.

(** [c.isspace()] on the code points below 256: the ASCII controls
    9-13 and 28-31, the space, NEL (133) and the no-break space (160). *)
Definition isspace (c : ascii) : bool :=
  let n := nat_of_ascii c in
  ((9 <=? n) && (n <=? 13)) || ((28 <=? n) && (n <=? 32))
  || (n =? 133) || (n =? 160).

(** [s.rstrip()]. *)
Fixpoint rstrip (s : str) : str :=
  match s with
  | [] => []
  | c :: s' =>
      match rstrip s' with
      | [] => if isspace c then [] else [c]
      | r => c :: r
      end
  end.

(** [s.rstrip("/")], as [os.path.dirname] uses it. *)
Fixpoint rstrip_char (x : ascii) (s : str) : str :=
  match s with
  | [] => []
  | c :: s' =>
      match rstrip_char x s' with
      | [] => if ch_eqb c x then [] else [c]
      | r => c :: r
      end
  end.

(** [str(n)] for a non-negative [int]. *)
Definition str_of_nat (n : nat) : str :=
  lit (NilEmpty.string_of_uint (Nat.to_uint n)).

End Py.

(* ===================================================================== *)
(** * The host: file tree, clock, exceptions *)
(* ===================================================================== *)

Module Os.

Definition slash : ascii := ascii_of_nat 47.
Definition dot : ascii := ascii_of_nat 46.

(** A node of the file tree: a regular file with its stored text and
    modification time, or a directory. *)
Inductive node :=
| File (raw : str) (mtime : Z)
| Dir (mtime : Z).

(** The world a call runs in: the file tree, the clock that stamps
    writes, and the log of [commit_changes] invocations (path,
    description), oldest first.  The version-control history lives
    outside the modelled file tree. *)
Record world := World {
  fs : gmap str node;
  now : Z;
  commits : list (str * str)
}.

(** The exceptions the modelled calls raise, with the path they name. *)
Inductive exn :=
| FileExistsError (p : str)
| FileNotFoundError (p : str)
| NotADirectoryError (p : str)
| IsADirectoryError (p : str)
| ValueError (msg : str)
| RecursionError.

(** [str(e)], for a path whose characters [repr] writes as they are
    inside single quotes ([repr_plain]). *)
Definition str_of_exn (e : exn) : str :=
  let quoted p := lit "'" ++ p ++ lit "'" in
  match e with
  | FileExistsError p => lit "[Errno 17] File exists: " ++ quoted p
  | FileNotFoundError p => lit "[Errno 2] No such file or directory: " ++ quoted p
  | NotADirectoryError p => lit "[Errno 20] Not a directory: " ++ quoted p
  | IsADirectoryError p => lit "[Errno 21] Is a directory: " ++ quoted p
  | ValueError msg => msg
  | RecursionError => lit "maximum recursion depth exceeded"
  end.

(** [isinstance(e, OSError)] and [isinstance(e, FileExistsError)]. *)
Definition is_OSError (e : exn) : bool :=
  match e with
  | ValueError _ | RecursionError => false
  | _ => true
  end.

Definition is_FileExistsError (e : exn) : bool :=
  match e with FileExistsError _ => true | _ => false end.

(** Computations that read and change the world and may raise: the
    world is kept when an exception is raised. *)
Inductive outcome (A : Type) :=
| Ok (a : A)
| Raise (e : exn).
Arguments Ok {A} a.
Arguments Raise {A} e.

Definition M (A : Type) : Type := world -> outcome A * world.

Definition ret {A} (a : A) : M A := fun w => (Ok a, w).
Definition raise {A} (e : exn) : M A := fun w => (Raise e, w).
Definition bind {A B} (m : M A) (k : A -> M B) : M B :=
  fun w => match m w with
           | (Ok a, w') => k a w'
           | (Raise e, w') => (Raise e, w')
           end.
(** [try: m except <handled>: h(e)]; other exceptions propagate. *)
Definition try_except {A} (m : M A) (handled : exn -> bool) (h : exn -> M A) : M A :=
  fun w => match m w with
           | (Ok a, w') => (Ok a, w')
           | (Raise e, w') => if handled e then h e w' else (Raise e, w')
           end.
Definition get {A} (f : world -> A) : M A := fun w => (Ok (f w), w).

Declare Scope os_scope.
Delimit Scope os_scope with os.
Notation "x <- m ;; k" := (bind m (fun x => k))
  (at level 100, m at next level, right associativity) : os_scope.
Notation "m ;;; k" := (bind m (fun _ => k))
  (at level 100, right associativity) : os_scope.

(** ** [os.path] *)

(** [p[:i], p[i:]] for [i = p.rfind("/") + 1]. *)
Fixpoint cut_last_slash (p : str) : str * str :=
  match p with
  | [] => ([], [])
  | c :: p' =>
      match cut_last_slash p' with
      | ([], t) => if Py.ch_eqb c slash then ([c], t) else ([], c :: t)
      | (h, t) => (c :: h, t)
      end
  end.

(** [os.path.split(p)]: trailing slashes are stripped from the head
    unless it consists of slashes only. *)
Definition split (p : str) : str * str :=
  let '(head, tail) := cut_last_slash p in
  let head := if forallb (fun c => Py.ch_eqb c slash) head
              then head else Py.rstrip_char slash head in
  (head, tail).

Definition dirname (p : str) : str := fst (split p).
Definition basename (p : str) : str := snd (cut_last_slash p).

(** [os.path.isabs(p)]. *)
Definition isabs (p : str) : bool := Py.startswith [slash] p.

(** [os.path.join(d, f)] for a name [f] that does not start with a slash. *)
Definition join (d f : str) : str :=
  if Py.startswith [slash] f then f
  else match d with
       | [] => f
       | _ :: _ => if Py.endswith [slash] d then d ++ f else d ++ [slash] ++ f
       end.

(** [p[:i], p[i:]] for [i = p.rfind(".")], when there is a dot. *)
Fixpoint cut_last_dot (p : str) : option (str * str) :=
  match p with
  | [] => None
  | c :: p' =>
      match cut_last_dot p' with
      | Some (h, t) => Some (c :: h, t)
      | None => if Py.ch_eqb c dot then Some ([], p) else None
      end
  end.

(** [os.path.splitext(p)] for a [p] without separator: the extension
    starts at the last dot, unless only dots precede it. *)
Definition splitext (p : str) : str * str :=
  match cut_last_dot p with
  | Some (root, ext) =>
      if forallb (fun c => Py.ch_eqb c dot) root then (p, []) else (root, ext)
  | None => (p, [])
  end.

(** ** The file tree *)

Definition exists_ (p : str) : M bool :=
  get (fun w => match fs w !! p with Some _ => true | None => false end).

Definition isdir (p : str) : M bool :=
  get (fun w => match fs w !! p with Some (Dir _) => true | _ => false end).

(** [os.stat(p).st_mtime]. *)
Definition stat_mtime (p : str) : M Z :=
  fun w => match fs w !! p with
           | Some (File _ t) | Some (Dir t) => (Ok t, w)
           | None => (Raise (FileNotFoundError p), w)
           end.

(** [open(p, "rb").read()]. *)
Definition read_bytes (p : str) : M str :=
  fun w => match fs w !! p with
           | Some (File raw _) => (Ok raw, w)
           | Some (Dir _) => (Raise (IsADirectoryError p), w)
           | None => (Raise (FileNotFoundError p), w)
           end.

(** Universal newlines: on a text-mode read, [\r\n] and a lone [\r]
    both become [\n]. *)
Definition universal_newlines (raw : str) : str :=
  Py.replace (Py.replace raw crlf nl) [CR] nl.

(** [open(p, "r", encoding=...).read()]. *)
Definition read_text (p : str) : M str :=
  (raw <- read_bytes p ;; ret (universal_newlines raw))%os.

(** [open(p, "w", encoding=...).write(data)]: [p] must name a file (no
    trailing slash, not a directory) in an existing directory; the file
    is created or truncated and stamped with the clock. *)
Definition write_text (p : str) (data : str) : M unit :=
  fun w => match basename p, fs w !! p with
           | [], _ | _, Some (Dir _) => (Raise (IsADirectoryError p), w)
           | _, _ =>
               match fs w !! dirname p with
               | Some (Dir _) =>
                   (Ok tt, World (<[p := File data (now w)]> (fs w)) (now w) (commits w))
               | Some (File _ _) => (Raise (NotADirectoryError p), w)
               | None => (Raise (FileNotFoundError p), w)
               end
           end.

(** [os.mkdir(p)]. *)
Definition mkdir (p : str) : M unit :=
  fun w => match fs w !! p with
           | Some _ => (Raise (FileExistsError p), w)
           | None =>
               match fs w !! dirname p with
               | Some (Dir _) =>
                   (Ok tt, World (<[p := Dir (now w)]> (fs w)) (now w) (commits w))
               | Some (File _ _) => (Raise (NotADirectoryError p), w)
               | None => (Raise (FileNotFoundError p), w)
               end
           end.

(** The first lines of [os.makedirs]:
    [head, tail = split(name); if not tail: head, tail = split(head)]. *)
Definition makedirs_split (name : str) : str * str :=
  let '(head, tail) := split name in
  match tail with
  | [] => split head
  | _ :: _ => (head, tail)
  end.

(** [os.makedirs(name, exist_ok=True)], following the library's
    recursion on the head of the path; [n] bounds the recursion depth. *)
Fixpoint makedirs_depth (n : nat) (name : str) : M unit :=
  let '(head, tail) := makedirs_split name in
  (head_exists <- exists_ head ;;
   stop <- (match head, tail with
            | _ :: _, _ :: _ =>
                if head_exists then ret false
                else
                  (match n with
                   | O => raise RecursionError
                   | S n' => try_except (makedirs_depth n' head)
                                        is_FileExistsError (fun _ => ret tt)
                   end ;;;
                   ret (Py.eqb tail [dot]))
            | _, _ => ret false
            end) ;;
   if (stop : bool) then ret tt
   else try_except (mkdir name) is_OSError
          (fun e => d <- isdir name ;; if (d : bool) then ret tt else raise e))%os.

Definition makedirs (name : str) : M unit := makedirs_depth (length name) name.

(** [os.listdir(d)]: the names directly under [d].  The host lists
    them in an order of its own; here they come in the order of the
    map's keys, and what is stated of a suggestion taken from a
    listing is stated for every order. *)
Definition listdir (d : str) : M (list str) :=
  fun w => match fs w !! d with
           | Some (Dir _) =>
               (Ok (omap (fun kv : str * node =>
                            let '(h, t) := split (fst kv) in
                            if Py.eqb h d && negb (Py.eqb t []) then Some t else None)
                         (map_to_list (fs w))), w)
           | Some (File _ _) => (Raise (NotADirectoryError d), w)
           | None => (Raise (FileNotFoundError d), w)
           end.

(** ** Well-formed trees *)

Definition is_dir_in (w : world) (p : str) : bool :=
  match fs w !! p with Some (Dir _) => true | _ => false end.

(** Every node lies in a directory of the tree (the root in itself),
    and a regular file has a name. *)
Definition node_ok (w : world) (p : str) (n : node) : bool :=
  is_dir_in w (dirname p)
  && match n with
     | File _ _ => negb (Py.eqb (basename p) [])
     | Dir _ => true
     end.

Definition wf_tree (w : world) : Prop :=
  map_Forall (fun p n => node_ok w p n = true) (fs w).

(** [d] is a directory of the tree, or can be added to it: it is
    missing, its last component is a name other than [.], and its
    parent is a directory or can be added. *)
Inductive dir_creatable (w : world) : str -> Prop :=
| dir_present d : is_dir_in w d = true -> dir_creatable w d
| dir_missing d head tail :
    fs w !! d = None ->
    split d = (head, tail) ->
    head <> [] -> tail <> [] -> tail <> [dot] ->
    dir_creatable w head ->
    dir_creatable w d.


End Os.

(* ===================================================================== *)
(** * deskaid/tools/edit_file.py *)
(* ===================================================================== *)

Import Os.
Local Open Scope os_scope.

(** [read_file_timestamps: Optional[Dict[str, float]]].  Instants are
    only ever compared, so they are taken from a totally ordered
    type. *)
Abbreviation timestamps := (option (gmap str Z)).

(** Truth value of [read_file_timestamps] in a condition: [None] and the
    empty dictionary are both false. *)
Definition truthy (ts : timestamps) : bool :=
  match ts with
  | None => false
  | Some m => bool_decide (m ≠ ∅)
  end.

(** [path in read_file_timestamps], evaluated only behind [truthy]. *)
Definition has_entry (ts : timestamps) (p : str) : bool :=
  match ts with
  | Some m => match m !! p with Some _ => true | None => false end
  | None => false
  end.

(** [read_file_timestamps.get(path, 0)]. *)
Definition get_entry (ts : timestamps) (p : str) : Z :=
  match ts with
  | Some m => default 0%Z (m !! p)
  | None => 0%Z
  end.

(** [read_file_timestamps[path] = t], guarded by [is not None]. *)
Definition record_read (ts : timestamps) (p : str) (t : Z) : timestamps :=
  match ts with
  | Some m => Some (<[p := t]> m)
  | None => None
  end.

(** One hunk of the patch [apply_edit] builds. *)
Record hunk := Hunk {
  oldStart : nat;
  oldLines : nat;
  newStart : nat;
  newLines : nat;
  hunk_lines : list str
}.

(** The messages [edit_file_content] returns. *)
Definition msg_no_change : str :=
  lit "No changes to make: old_string and new_string are exactly the same.".
Definition msg_already_exists : str :=
  lit "Cannot create new file - file already exists.".
Definition msg_created (path : str) : str := lit "Successfully created " ++ path.
Definition msg_missing (path : str) (similar : option str) : str :=
  lit "Error: File does not exist: " ++ path
  ++ match similar with
     | Some f => lit " Did you mean " ++ f ++ lit "?"
     | None => []
     end.
Definition msg_notebook : str :=
  lit "Error: File is a Jupyter Notebook. Use the NotebookEditTool to edit this file.".
Definition msg_never_read : str :=
  lit "Error: File has not been read yet. Read it first before writing to it.".
Definition msg_stale : str :=
  lit "Error: File has been modified since read, either by the user or by a linter. Read it again before attempting to write it.".
Definition msg_not_found : str :=
  lit "Error: String to replace not found in file.".
Definition msg_ambiguous (matches : nat) : str :=
  lit "Error: Found " ++ Py.str_of_nat matches
  ++ lit " matches of the string to replace. For safety, this tool only supports replacing exactly one occurrence at a time. Add more lines of context to your edit and try again.".
Definition msg_edited (path snippet git_message : str) : str :=
  lit "Successfully edited " ++ path ++ nl ++ nl
  ++ lit "Here's a snippet of the edited file:" ++ nl ++ snippet ++ git_message.
Definition git_committed (description : str) : str :=
  nl ++ nl ++ lit "Changes committed to git: " ++ description.
Definition git_failed (message : str) : str :=
  nl ++ nl ++ lit "Failed to commit changes to git: " ++ message.
Definition msg_exception (e : exn) : str :=
  lit "Error editing file: " ++ str_of_exn e.

(** [detect_file_encoding]: always UTF-8. *)
Definition detect_file_encoding (file_path : str) : str := lit "utf-8".

(** [detect_line_endings]: CRLF as soon as the stored bytes contain one
    [\r\n], LF otherwise. *)
Definition detect_line_endings (file_path : str) : M str :=
  content <- read_bytes file_path ;;
  if Py.contains crlf content then ret (lit "CRLF") else ret (lit "LF").

(** [find_similar_file]: the first listed name of the same directory
    that starts with the stem of [file_path] and a dot and is not the
    file itself. *)
Definition find_similar_file (file_path : str) : M (option str) :=
  let directory := dirname file_path in
  dir_exists <- exists_ directory ;;
  if negb dir_exists then ret None
  else
    let base_name := fst (splitext (basename file_path)) in
    names <- listdir directory ;;
    ret (match List.find (fun f => Py.startswith (base_name ++ [dot]) f
                                   && negb (Py.eqb f (basename file_path))) names with
         | Some f => Some (join directory f)
         | None => None
         end).

(** [apply_edit]: re-reads the file, replaces the first occurrence and
    builds the one-hunk patch.  [content.split(old_string)] raises
    [ValueError] on an empty [old_string]. *)
Definition apply_edit (file_path old_string new_string : str) : M (list hunk * str) :=
  file_exists <- exists_ file_path ;;
  content <- (if file_exists then read_text file_path else ret []) ;;
  let updated_file := Py.replace_first content old_string new_string in
  patch <- (if negb (Py.eqb old_string new_string) then
              let old_lines := Py.lines old_string in
              let new_lines := Py.lines new_string in
              match Py.split content old_string with
              | None => raise (ValueError (lit "empty separator"))
              | Some parts =>
                  let before_text := hd [] parts in
                  let line_num := Py.count before_text nl in
                  ret [Hunk (line_num + 1) (length old_lines)
                            (line_num + 1) (length new_lines)
                            (map (fun line => lit "-" ++ line) old_lines
                             ++ map (fun line => lit "+" ++ line) new_lines)]
              end
            else ret []) ;;
  ret (patch, updated_file).

(** The text [write_text_content] hands to the file: the line-ending
    normalisation of [content]. *)
Definition normalize_line_endings (content line_endings : str) : str :=
  if Py.eqb line_endings (lit "CRLF")
  then Py.replace content nl crlf
  else Py.replace content crlf nl.

(** [write_text_content]. *)
Definition write_text_content (file_path content encoding line_endings : str) : M unit :=
  write_text file_path (normalize_line_endings content line_endings).

(** [debug_string_comparison]: apart from logging, [not (s1 == s2)]. *)
Definition debug_string_comparison (s1 s2 : str) : bool := negb (Py.eqb s1 s2).

(** The inner loop of the fallback: do the [len(old_string_lines)] lines
    of the content from line [i] on equal the expected lines after
    right-trimming? *)
Definition window_matches (content_lines old_string_lines : list str) (i : nat) : bool :=
  forallb (fun j => Py.eqb (Py.rstrip (nth (i + j) content_lines []))
                           (Py.rstrip (nth j old_string_lines [])))
          (seq 0 (length old_string_lines)).

(** The outer loop: the first [i] in
    [range(len(content_lines) - len(old_string_lines) + 1)] whose window
    matches. *)
Definition find_window (content_lines old_string_lines : list str) : option nat :=
  List.find (window_matches content_lines old_string_lines)
            (seq 0 (length content_lines + 1 - length old_string_lines)).

(** [content_lines[i:i + n]]. *)
Definition slice (l : list str) (i n : nat) : list str := take n (drop i l).

(** Lines 286-310: the effective [old_string] after the existence check
    and its fallback; [None] is the return of the not-found error.  When
    the loop ends without a matching window, [old_string] is left as it
    was. *)
Definition resolve_old_string (content old_string : str) : option str :=
  if negb (Py.eqb old_string []) && negb (Py.contains old_string content) then
    let content_no_trailing_whitespace := Py.join nl (map Py.rstrip (Py.lines content)) in
    let old_string_no_trailing_whitespace := Py.join nl (map Py.rstrip (Py.lines old_string)) in
    if Py.contains old_string_no_trailing_whitespace content_no_trailing_whitespace then
      let content_lines := Py.lines content in
      let old_string_lines := Py.lines old_string in
      match find_window content_lines old_string_lines with
      | Some i => Some (Py.join nl (slice content_lines i (length old_string_lines)))
      | None => Some old_string
      end
    else None
  else Some old_string.

(** The resolved path of a request: [file_path] if it is absolute,
    else [os.path.abspath(file_path)]. *)
Definition full_path (abspath : str -> str) (file_path : str) : str :=
  if isabs file_path then file_path else abspath file_path.

(** The two freshness checks let a file with modification time [mtime]
    through: the table is [None] or empty, or it has an entry for the
    path that is not older than [mtime]. *)
Definition passes_freshness (ts : timestamps) (p : str) (mtime : Z) : bool :=
  negb (truthy ts) || (has_entry ts p && (mtime <=? get_entry ts p)%Z).

(** What [detect_line_endings] answers for a file that stores [raw]. *)
Definition line_endings_of (raw : str) : str :=
  if Py.contains crlf raw then lit "CRLF" else lit "LF".

(** The hunk [apply_edit] emits for a replacement in [content]. *)
Definition hunk_of (content old_string new_string : str) : hunk :=
  let line_num := Py.count (hd [] (Py.split_from 0 content old_string)) nl in
  Hunk (line_num + 1) (length (Py.lines old_string))
       (line_num + 1) (length (Py.lines new_string))
       (map (fun line => lit "-" ++ line) (Py.lines old_string)
        ++ map (fun line => lit "+" ++ line) (Py.lines new_string)).

Section EditFile.

(** [os.path.abspath]. *)
Variable abspath : str -> str.
(** [get_edit_snippet(content, old_string, new_string)] of [..common]. *)
Variable get_edit_snippet : str -> str -> str -> str.
(** The answer [(success, message)] of [commit_changes(path, description)]
    of [..common] in a given world. *)
Variable commit_result : world -> str -> str -> bool * str.

(** [commit_changes]: the invocation is logged; the file tree is not
    touched. *)
Definition commit_changes (path description : str) : M (bool * str) :=
  fun w => (Ok (commit_result w path description),
            World (fs w) (now w) (commits w ++ [(path, description)])).

(** The body of the [try] block of [edit_file_content]; the result is
    the returned message and the timestamp table as the call leaves
    it. *)
Definition edit_file_body (file_path old_string new_string : str)
    (read_file_timestamps : timestamps) (description : str) : M (str * timestamps) :=
  let full_file_path := full_path abspath file_path in
  let strings_are_different := debug_string_comparison old_string new_string in
  if negb strings_are_different then ret (msg_no_change, read_file_timestamps)
  else
  path_exists <- exists_ full_file_path ;;
  if Py.eqb old_string [] && path_exists then ret (msg_already_exists, read_file_timestamps)
  else
  path_exists <- exists_ full_file_path ;;
  if Py.eqb old_string [] && negb path_exists then
    let directory := dirname full_file_path in
    makedirs directory ;;;
    write_text_content full_file_path new_string (lit "utf-8") (lit "LF") ;;;
    ret (msg_created full_file_path, read_file_timestamps)
  else
  path_exists <- exists_ full_file_path ;;
  if negb path_exists then
    similar_file <- find_similar_file full_file_path ;;
    ret (msg_missing full_file_path similar_file, read_file_timestamps)
  else
  if Py.endswith (lit ".ipynb") full_file_path then ret (msg_notebook, read_file_timestamps)
  else
  if truthy read_file_timestamps && negb (has_entry read_file_timestamps full_file_path)
  then ret (msg_never_read, read_file_timestamps)
  else
  stale <- (if truthy read_file_timestamps then
              path_exists <- exists_ full_file_path ;;
              if (path_exists : bool) then
                last_write_time <- stat_mtime full_file_path ;;
                ret (get_entry read_file_timestamps full_file_path <? last_write_time)%Z
              else ret false
            else ret false) ;;
  if (stale : bool) then ret (msg_stale, read_file_timestamps)
  else
  let encoding := detect_file_encoding full_file_path in
  line_endings <- detect_line_endings full_file_path ;;
  content <- read_text full_file_path ;;
  match resolve_old_string content old_string with
  | None => ret (msg_not_found, read_file_timestamps)
  | Some old_string =>
      if negb (Py.eqb old_string []) && (1 <? Py.count content old_string) then
        let matches := Py.count content old_string in
        ret (msg_ambiguous matches, read_file_timestamps)
      else
        r <- apply_edit full_file_path old_string new_string ;;
        let '(patch, updated_file) := r in
        let directory := dirname full_file_path in
        makedirs directory ;;;
        write_text_content full_file_path updated_file encoding line_endings ;;;
        read_file_timestamps <-
          (match read_file_timestamps with
           | Some _ => t <- stat_mtime full_file_path ;;
                       ret (record_read read_file_timestamps full_file_path t)
           | None => ret read_file_timestamps
           end) ;;
        let snippet := get_edit_snippet content old_string new_string in
        c <- commit_changes full_file_path description ;;
        let '(success, message) := c in
        let git_message := if (success : bool) then git_committed description
                           else git_failed message in
        ret (msg_edited full_file_path snippet git_message, read_file_timestamps)
  end.

(** [edit_file_content]: any exception of the body becomes the
    last-resort message; the table is then as the caller passed it,
    since the body updates it only after its last raising step. *)
Definition edit_file_content (file_path old_string new_string : str)
    (read_file_timestamps : timestamps) (description : str)
    (w : world) : (str * timestamps) * world :=
  match edit_file_body file_path old_string new_string read_file_timestamps description w with
  | (Ok r, w') => (r, w')
  | (Raise e, w') => ((msg_exception e, read_file_timestamps), w')
  end.

End EditFile.


(* ===================================================================== *)
(** * Notions used to state the properties *)
(* ===================================================================== *)

(** All indices at which [sub] occurs in [s], overlapping occurrences
    included. *)
Fixpoint positions (s sub : str) : list nat :=
  (if Py.startswith sub s then [0] else [])
  ++ match s with
     | [] => []
     | _ :: s' => map S (positions s' sub)
     end.

(** Line-break normalisation as the specification words it: every line
    break of the content, be it [\r\n] or [\n], becomes the requested
    line break [eol]; all other characters are kept. *)
Fixpoint spec_normalize_line_breaks (eol : str) (content : str) : str :=
  match content with
  | [] => []
  | c :: rest =>
      if Py.ch_eqb c LF then eol ++ spec_normalize_line_breaks eol rest
      else match rest with
           | c' :: rest' =>
               if Py.ch_eqb c CR && Py.ch_eqb c' LF
               then eol ++ spec_normalize_line_breaks eol rest'
               else c :: spec_normalize_line_breaks eol rest
           | [] => [c]
           end
  end.

(** The line break a style name requests. *)
Definition eol_of (line_endings : str) : str :=
  if Py.eqb line_endings (lit "CRLF") then crlf else nl.



(** Two outcomes of the body that differ at most in the note on the
    commit: the worlds and the tables agree, and the answers are either
    the same answer, which is not one of a finished edit, or the
    answers of a finished edit with the notes [note1] and [note2]. *)
Definition same_but_note (note1 note2 : str)
    (o1 o2 : outcome (str * timestamps) * world) : Prop :=
  snd o1 = snd o2 /\
  match fst o1, fst o2 with
  | Ok (msg1, ts1), Ok (msg2, ts2) =>
      ts1 = ts2 /\
      ((msg1 = msg2 /\ Py.startswith (lit "Successfully edited") msg1 = false)
       \/ exists path snippet,
            msg1 = msg_edited path snippet note1 /\ msg2 = msg_edited path snippet note2)
  | Raise e1, Raise e2 => e1 = e2
  | _, _ => False
  end.

(** ** A small host to run the pipeline on *)

Module Demo.

(** Stand-ins for the collaborators: the working directory is [/work],
    the snippet is the new text, and the commit succeeds or fails. *)
Definition abspath (p : str) : str := lit "/work/" ++ p.
Definition snippet (content old_string new_string : str) : str := new_string.
Definition commit_ok (w : world) (path description : str) : bool * str :=
  (true, lit "committed").
Definition commit_ko (w : world) (path description : str) : bool * str :=
  (false, lit "nothing to commit").

(** The root directory and the file [/f.txt], last written at 5; the
    clock shows 10. *)
Definition f_txt : str := lit "/f.txt".
Definition tree (raw : str) : world :=
  World (<[f_txt := File raw 5]> (<[lit "/" := Dir 0]> ∅)) 10 [].

Definition foo_bar : str := lit "foo" ++ nl ++ lit "bar" ++ nl.

Definition edit := edit_file_content abspath snippet commit_ok.

(** Paths of files that are not in [tree]. *)
Definition todo_txt : str := lit "/docs/notes/todo.txt".
Definition analysis_ipynb : str := lit "/nb/analysis.ipynb".

(** File contents for the fallback pass: trailing blanks that the
    caller's text lacks. *)
Definition foo_blanks_bar : str := lit "foo  " ++ nl ++ lit "bar".
Definition ab_twice : str := lit "a " ++ nl ++ lit "b" ++ nl ++ lit "a " ++ nl ++ lit "b".

(** Content that mixes [\r\n] and [\n]. *)
Definition mixed : str := lit "a" ++ crlf ++ lit "b" ++ nl ++ lit "c".

(** A timestamp table that knows [/f.txt] only. *)
Definition read_f_at (t : Z) : timestamps := Some {[ f_txt := t ]}.

End Demo.

(* ===================================================================== *)
(** * Plainly spelled paths, and the outcomes of a request *)
(* ===================================================================== *)

Definition NUL : ascii := ascii_of_nat 0.

(** The components of a path: the texts between its separators, the
    empty text before a leading separator included. *)
Fixpoint components (p : str) : list str :=
  match p with
  | [] => [[]]
  | c :: p' =>
      if Py.ch_eqb c slash then [] :: components p'
      else match components p' with
           | x :: xs => (c :: x) :: xs
           | [] => [[c]]
           end
  end.

(** A name the host takes as it is spelled: not empty, neither [.] nor
    [..], without NUL, and of at most 127 characters (its UTF-8 form
    then fits the 255 bytes of [NAME_MAX]). *)
Definition plain_name (f : str) : bool :=
  negb (Py.eqb f []) && negb (Py.eqb f [dot]) && negb (Py.eqb f [dot; dot])
  && forallb (fun c => negb (Py.ch_eqb c NUL)) f
  && (length f <=? 127).

(** A plainly spelled path: absolute, with one separator before each
    of its names and none at the end, every name plain, and of at most
    2047 characters (its UTF-8 form then fits [PATH_MAX]).  The host
    resolves such a path to itself, so looking the path up in the tree
    is what [os.path.exists], [open], [os.mkdir] and [os.listdir] do
    with it; a path spelled otherwise ([/src/../gap.txt], [/src/],
    a path with NUL, an overlong name) is resolved or refused by the
    host before the tree is consulted, which the tree's literal lookup
    does not follow. *)
Definition plain_path (p : str) : bool :=
  match components p with
  | [] :: name :: names => forallb plain_name (name :: names)
  | _ => false
  end
  && (length p <=? 2047).



(** The requests the specification sorts as successes and as failures
    (sections 4.5 and 7), stated on the request and the tree the call
    finds.  Three kinds of request are in neither: a table that is
    empty, a text matched by the substring pre-test of the fallback
    but by no window, and a failure of the host not listed here. *)
Section Outcomes.

Variable w : world.
Variables full old_string new_string : str.
Variable ts : timestamps.





End Outcomes.

(* ===================================================================== *)
(** * Further notions: line breaks, canonical names *)
(* ===================================================================== *)

(** Every line feed of [s] comes right after a carriage return;
    [prev_cr] tells whether the character before [s] is one. *)
Fixpoint lf_after_cr (prev_cr : bool) (s : str) : bool :=
  match s with
  | [] => true
  | c :: s' => (if Py.ch_eqb c LF then prev_cr else true)
               && lf_after_cr (Py.ch_eqb c CR) s'
  end.

(** The path names of the tree are spelled the way [os.path.join]
    spells them: joining the directory and the name of a path gives
    the path back (no doubled or trailing separator). *)
Definition canonical_names (w : world) : Prop :=
  map_Forall (fun p (_ : node) => join (dirname p) (basename p) = p) (fs w).

(** ** What a computation may do to the world *)

(** Every run of [m] leaves a world related by [R] to the one it
    started in, whether it returns or raises. *)
Definition respects {A} (R : world -> world -> Prop) (m : M A) : Prop :=
  forall w, R w (snd (m w)).

(** The log of commit invocations is the same. *)
Definition same_commits (w w' : world) : Prop := commits w' = commits w.

(** Away from the path [p], the tree is the same except for
    directories added at paths that were missing. *)
Definition only_touches (p : str) (w w' : world) : Prop :=
  forall q, q <> p ->
    fs w' !! q = fs w !! q
    \/ (fs w !! q = None /\ exists t, fs w' !! q = Some (Dir t)).

(** An outcome of the body that either answers "Successfully ...", or
    has left the world [w0] and the table [ts] as they were. *)
Definition done_or_untouched (w0 : world) (ts : timestamps)
    (o : outcome (str * timestamps) * world) : Prop :=
  match fst o with
  | Ok (msg, ts') =>
      Py.startswith (lit "Successfully") msg = true \/ (snd o = w0 /\ ts' = ts)
  | Raise _ => True
  end.

(** The commit log of an outcome of the body: the log [c0] it started
    with, plus [entry] exactly when the answer is one of a finished
    edit. *)
Definition commit_logged (c0 : list (str * str)) (entry : str * str)
    (o : outcome (str * timestamps) * world) : Prop :=
  commits (snd o)
  = c0 ++ match fst o with
          | Ok (msg, _) =>
              if Py.startswith (lit "Successfully edited") msg then [entry] else []
          | Raise _ => []
          end.

(** The names [os.listdir(d)] returns for a directory [d] of the
    tree, in the order of the map's keys; the host may list them in
    any order. *)
Definition names_under (w : world) (d : str) : list str :=
  omap (fun kv : str * node =>
          let '(h, t) := split (fst kv) in
          if Py.eqb h d && negb (Py.eqb t []) then Some t else None)
       (map_to_list (fs w)).

(** The loop of [find_similar_file] over a listing [names] of the
    directory: the first name that starts with the stem of
    [file_path] and a dot and is not the name of [file_path], joined
    to the directory. *)
Definition first_similar (file_path : str) (names : list str) : option str :=
  let directory := dirname file_path in
  let base_name := fst (splitext (basename file_path)) in
  match List.find (fun f => Py.startswith (base_name ++ [dot]) f
                            && negb (Py.eqb f (basename file_path))) names with
  | Some f => Some (join directory f)
  | None => None
  end.

(** A step keeps the tree well formed. *)
Definition keeps_wf (w w' : world) : Prop := wf_tree w -> wf_tree w'.

(** The tree only grows: a directory stays the directory it was, and
    a regular file stays a regular file. *)
Definition grows (w w' : world) : Prop :=
  forall q, match fs w !! q with
            | Some (Dir t) => fs w' !! q = Some (Dir t)
            | Some (File _ _) => exists raw mt, fs w' !! q = Some (File raw mt)
            | None => True
            end.

(** The table a call leaves is the table passed, or that table with
    the entry of [p] set. *)
Definition kept_or_stamped (ts : timestamps) (p : str) (ts' : timestamps) : Prop :=
  ts' = ts \/ exists t, ts' = record_read ts p t.

Definition table_kept_or_stamped (ts : timestamps) (p : str)
    (o : outcome (str * timestamps) * world) : Prop :=
  match fst o with
  | Ok (_, ts') => kept_or_stamped ts p ts'
  | Raise _ => True
  end.

(** ** A project tree with a sub-directory *)

Module Project.

(** [/src] holds a module and its stub; a notebook and a text file
    with an empty line lie at the root.  The clock shows 10. *)
Definition src : str := lit "/src".
Definition app_py : str := lit "/src/app.py".
Definition app_pyi : str := lit "/src/app.pyi".
Definition nb_ipynb : str := lit "/nb.ipynb".
Definition gap_txt : str := lit "/gap.txt".

Definition tree : world :=
  World (<[gap_txt := File (lit "a" ++ nl ++ nl ++ lit "b") 5]>
         (<[nb_ipynb := File (lit "{}") 4]>
          (<[app_pyi := File (lit "x: int" ++ nl) 3]>
           (<[app_py := File (lit "x = 1" ++ nl) 2]>
            (<[src := Dir 1]>
             (<[lit "/" := Dir 0]> ∅))))))
        10 [].

End Project.
(* ===================================================================== *)
(** * Facts about the string methods *)
(* ===================================================================== *)

Section PyFacts.

Lemma ch_eqb_true a b : Py.ch_eqb a b = true <-> a = b.
Proof. unfold Py.ch_eqb. apply Ascii.eqb_eq. Qed.

Lemma eqb_true a b : Py.eqb a b = true <-> a = b.
Proof.
  revert b. induction a as [|x a IH]; intros [|y b]; simpl; try (split; congruence).
  rewrite andb_true_iff, ch_eqb_true, IH. split; [intros [-> ->]; reflexivity | intros [= -> ->]; auto].
Qed.

Lemma eqb_refl a : Py.eqb a a = true.
Proof. apply eqb_true. reflexivity. Qed.

Lemma eqb_false a b : Py.eqb a b = false <-> a <> b.
Proof.
  rewrite <- eqb_true. destruct (Py.eqb a b); split; congruence.
Qed.

Lemma startswith_app p t : Py.startswith p (p ++ t) = true.
Proof.
  induction p as [|x p IH]; simpl; [reflexivity|].
  rewrite IH, andb_true_r. apply ch_eqb_true. reflexivity.
Qed.

Lemma startswith_true p s : Py.startswith p s = true -> s = p ++ drop (length p) s.
Proof.
  revert s. induction p as [|x p IH]; intros s H; simpl in *.
  - reflexivity.
  - destruct s as [|y s]; [discriminate|].
    apply andb_true_iff in H as [Hc Hs]. apply ch_eqb_true in Hc as ->.
    simpl. f_equal. apply IH, Hs.
Qed.

Lemma startswith_nil_r p : p <> [] -> Py.startswith p [] = false.
Proof. destruct p; [congruence | reflexivity]. Qed.

(** [find] returns the first index at which [sub] matches. *)
Lemma find_Some s sub i :
  Py.find s sub = Some i ->
  s = take i s ++ sub ++ drop (i + length sub) s.
Proof.
  revert i. induction s as [|c s IH]; intros i; simpl.
  - destruct (Py.startswith sub []) eqn:E; [|discriminate].
    intros [= <-]. destruct sub; [reflexivity | discriminate].
  - destruct (Py.startswith sub (c :: s)) eqn:E.
    + intros [= <-]. simpl. apply startswith_true in E. exact E.
    + destruct (Py.find s sub) as [j|] eqn:F; [|discriminate].
      simpl. intros [= <-]. simpl. f_equal. apply IH. reflexivity.
Qed.

Lemma find_None_nonempty s sub : Py.find s sub = None -> sub <> [].
Proof. destruct s, sub; simpl; congruence. Qed.

Lemma find_lt s sub i : Py.find s sub = Some i -> i + length sub <= length s.
Proof.
  revert i. induction s as [|c s IH]; intros i; simpl.
  - destruct sub; simpl; [intros [= <-]; lia | discriminate].
  - destruct (Py.startswith sub (c :: s)) eqn:E.
    + intros [= <-]. apply startswith_true in E.
      apply (f_equal length) in E. rewrite length_app in E. simpl in *. lia.
    + destruct (Py.find s sub) as [j|] eqn:F; [|discriminate].
      simpl. intros [= <-]. specialize (IH j eq_refl). lia.
Qed.

(** [count] is zero exactly when [find] fails. *)
Lemma count_from_find_None s sub :
  Py.find s sub = None -> Py.count_from 0 s sub = 0.
Proof.
  induction s as [|c s IH]; simpl; [reflexivity|].
  destruct (Py.startswith sub (c :: s)); [discriminate|].
  destruct (Py.find s sub); [discriminate|]. intros _. apply IH. reflexivity.
Qed.

Lemma count_from_find_Some s sub i :
  sub <> [] -> Py.find s sub = Some i -> 1 <= Py.count_from 0 s sub.
Proof.
  intros Hne. revert i. induction s as [|c s IH]; intros i; simpl.
  - rewrite startswith_nil_r by assumption. discriminate.
  - destruct (Py.startswith sub (c :: s)); [lia|].
    destruct (Py.find s sub) as [j|]; [|discriminate]. intros _. eapply IH. reflexivity.
Qed.

Lemma count_zero_iff s sub :
  sub <> [] -> (Py.count s sub = 0 <-> Py.contains sub s = false).
Proof.
  intros Hne. unfold Py.count, Py.contains. destruct sub as [|x sub]; [congruence|].
  destruct (Py.find s (x :: sub)) as [i|] eqn:F.
  - pose proof (count_from_find_Some _ _ _ Hne F). split; [lia | discriminate].
  - rewrite count_from_find_None by assumption. tauto.
Qed.

Lemma count_pos_contains s sub :
  sub <> [] -> 1 <= Py.count s sub -> exists i, Py.find s sub = Some i.
Proof.
  intros Hne H. destruct (Py.find s sub) as [i|] eqn:F; [eauto|].
  assert (Py.count s sub = 0); [|lia].
  apply count_zero_iff; [assumption|]. unfold Py.contains. rewrite F. reflexivity.
Qed.


Lemma replace_first_absent s old new :
  Py.find s old = None -> Py.replace_first s old new = s.
Proof.
  induction s as [|c s IH]; simpl.
  - destruct (Py.startswith old []); [discriminate | reflexivity].
  - destruct (Py.startswith old (c :: s)); [discriminate|].
    destruct (Py.find s old); [discriminate|]. intros _. f_equal. apply IH. reflexivity.
Qed.

Lemma split_from_nonempty k s sep : Py.split_from k s sep <> [].
Proof.
  revert k. induction s as [|c s IH]; intros k; simpl; [discriminate|].
  destruct k; [|apply IH].
  destruct (Py.startswith sep (c :: s)); [discriminate|].
  destruct (Py.split_from 0 s sep); discriminate.
Qed.

(** The first piece of [split] is the text before the first occurrence. *)
Lemma split_hd_find s sep i :
  sep <> [] -> Py.find s sep = Some i ->
  hd [] (Py.split_from 0 s sep) = take i s.
Proof.
  intros Hne. revert i. induction s as [|c s IH]; intros i; simpl.
  - rewrite startswith_nil_r by assumption. discriminate.
  - destruct (Py.startswith sep (c :: s)) eqn:E.
    + intros [= <-]. reflexivity.
    + destruct (Py.find s sep) as [j|] eqn:F; [|discriminate].
      simpl. intros [= <-]. specialize (IH j eq_refl).
      pose proof (split_from_nonempty 0 s sep).
      destruct (Py.split_from 0 s sep); [congruence|]. simpl in *. congruence.
Qed.

Lemma split_absent s sep :
  Py.find s sep = None -> Py.split_from 0 s sep = [s].
Proof.
  induction s as [|c s IH]; simpl; [reflexivity|].
  destruct (Py.startswith sep (c :: s)); [discriminate|].
  destruct (Py.find s sep); [discriminate|]. intros _. rewrite IH by reflexivity. reflexivity.
Qed.

(** The number of lines is one more than the number of line feeds. *)
Lemma length_lines s : length (Py.lines s) = Py.count s nl + 1.
Proof.
  unfold Py.lines, Py.count, nl.
  induction s as [|c s IH]; simpl; [reflexivity|].
  destruct (Py.ch_eqb LF c); simpl.
  - rewrite IH. lia.
  - pose proof (split_from_nonempty 0 s [LF]).
    destruct (Py.split_from 0 s [LF]); [congruence|]. simpl in *. lia.
Qed.





End PyFacts.

(* ===================================================================== *)
(** * Facts about the host *)
(* ===================================================================== *)

(** Unfolding of the monad and of the primitive calls. *)
Ltac os_unfold :=
  cbv [bind ret raise get exists_ isdir try_except stat_mtime read_bytes
       read_text write_text mkdir].

Section OsFacts.




Lemma makedirs_depth_unfold n name :
  makedirs_depth n name =
  let '(head, tail) := makedirs_split name in
  (head_exists <- exists_ head ;;
   stop <- (match head, tail with
            | _ :: _, _ :: _ =>
                if head_exists then ret false
                else
                  (match n with
                   | O => raise RecursionError
                   | S n' => try_except (makedirs_depth n' head)
                                        is_FileExistsError (fun _ => ret tt)
                   end ;;;
                   ret (Py.eqb tail [dot]))
            | _, _ => ret false
            end) ;;
   if (stop : bool) then ret tt
   else try_except (mkdir name) is_OSError
          (fun e => d <- isdir name ;; if (d : bool) then ret tt else raise e))%os.
Proof. destruct n; reflexivity. Qed.

Lemma wf_tree_parent w p n :
  wf_tree w -> fs w !! p = Some n -> is_dir_in w (dirname p) = true.
Proof.
  intros Hwf Hp. specialize (Hwf p n Hp). simpl in Hwf.
  unfold node_ok in Hwf. apply andb_true_iff in Hwf. tauto.
Qed.

Lemma is_dir_in_lookup w p :
  is_dir_in w p = true -> exists t, fs w !! p = Some (Dir t).
Proof.
  unfold is_dir_in. destruct (fs w !! p) as [[|t]|]; try discriminate. eauto.
Qed.

(** On a directory of a well-formed tree [os.makedirs] changes
    nothing. *)
Lemma makedirs_present w d n :
  wf_tree w -> is_dir_in w d = true -> makedirs_depth n d w = (Ok tt, w).
Proof.
  intros Hwf Hd. destruct (is_dir_in_lookup _ _ Hd) as [t Ht].
  rewrite makedirs_depth_unfold.
  destruct (makedirs_split d) as [head tail] eqn:Hs.
  assert (Hhead : head <> [] -> tail <> [] -> exists x, fs w !! head = Some x).
  { intros _ _. unfold makedirs_split in Hs.
    destruct (split d) as [h0 t0] eqn:Hd0.
    assert (Hp : is_dir_in w h0 = true).
    { replace h0 with (dirname d) by (unfold dirname; rewrite Hd0; reflexivity).
      eapply wf_tree_parent; eauto. }
    destruct t0.
    - destruct (is_dir_in_lookup _ _ Hp) as [t1 Ht1].
      pose proof (wf_tree_parent _ _ _ Hwf Ht1) as Hpp.
      unfold dirname in Hpp. rewrite Hs in Hpp. simpl in Hpp.
      destruct (is_dir_in_lookup _ _ Hpp). eauto.
    - injection Hs as <- <-. destruct (is_dir_in_lookup _ _ Hp). eauto. }
  destruct head as [|hc head], tail as [|tc tail]; os_unfold;
    rewrite ?Ht; simpl; rewrite ?Ht; try reflexivity.
  destruct (Hhead ltac:(congruence) ltac:(congruence)) as [x Hx].
  rewrite Hx, Ht. simpl. rewrite Ht. reflexivity.
Qed.





End OsFacts.

(* ===================================================================== *)
(** * The pipeline on an existing file *)
(* ===================================================================== *)

Section Flow.

Variable abspath : str -> str.
Variable get_edit_snippet : str -> str -> str -> str.
Variable commit_result : world -> str -> str -> bool * str.

Local Abbreviation run_body := (edit_file_body abspath get_edit_snippet commit_result).

Lemma wf_tree_file w p raw mt :
  wf_tree w -> fs w !! p = Some (File raw mt) ->
  basename p <> [] /\ is_dir_in w (dirname p) = true.
Proof.
  intros Hwf Hp. specialize (Hwf p _ Hp). simpl in Hwf. unfold node_ok in Hwf.
  apply andb_true_iff in Hwf as [H1 H2]. split; [|assumption].
  apply negb_true_iff, eqb_false in H2. assumption.
Qed.

(** Writing to an existing regular file of a well-formed tree. *)
Lemma write_text_existing w p raw mt data :
  wf_tree w -> fs w !! p = Some (File raw mt) ->
  write_text p data w
  = (Ok tt, World (<[p := File data (now w)]> (fs w)) (now w) (commits w)).
Proof.
  intros Hwf Hp. destruct (wf_tree_file _ _ _ _ Hwf Hp) as [Hb Hd].
  destruct (is_dir_in_lookup _ _ Hd) as [t Ht].
  unfold write_text. rewrite Hp, Ht. destruct (basename p); [congruence | reflexivity].
Qed.

Lemma bind_Ok {A B} (m : M A) (k : A -> M B) w a w' :
  m w = (Ok a, w') -> bind m k w = k a w'.
Proof. unfold bind. intros ->. reflexivity. Qed.

Lemma exists_present w p n : fs w !! p = Some n -> exists_ p w = (Ok true, w).
Proof. unfold exists_, get. intros ->. reflexivity. Qed.

Lemma exists_absent w p : fs w !! p = None -> exists_ p w = (Ok false, w).
Proof. unfold exists_, get. intros ->. reflexivity. Qed.

Lemma stat_mtime_file w p raw mt :
  fs w !! p = Some (File raw mt) -> stat_mtime p w = (Ok mt, w).
Proof. unfold stat_mtime. intros ->. reflexivity. Qed.

Lemma read_text_file w p raw mt :
  fs w !! p = Some (File raw mt) -> read_text p w = (Ok (universal_newlines raw), w).
Proof. unfold read_text, bind, read_bytes, ret. intros ->. reflexivity. Qed.

Lemma detect_line_endings_file w p raw mt :
  fs w !! p = Some (File raw mt) ->
  detect_line_endings p w = (Ok (line_endings_of raw), w).
Proof.
  unfold detect_line_endings, line_endings_of, bind, read_bytes, ret. intros ->.
  destruct (Py.contains crlf raw); reflexivity.
Qed.

(** [apply_edit] on an existing regular file. *)
Lemma apply_edit_file w p raw mt old_string new_string :
  fs w !! p = Some (File raw mt) ->
  let content := universal_newlines raw in
  apply_edit p old_string new_string w
  = if Py.eqb old_string new_string
    then (Ok ([], Py.replace_first content old_string new_string), w)
    else match old_string with
         | [] => (Raise (ValueError (lit "empty separator")), w)
         | _ :: _ => (Ok ([hunk_of content old_string new_string],
                          Py.replace_first content old_string new_string), w)
         end.
Proof.
  intros Hp content. unfold apply_edit.
  rewrite (bind_Ok _ _ _ _ _ (exists_present _ _ _ Hp)).
  rewrite (bind_Ok _ _ _ _ _ (read_text_file _ _ _ _ Hp)). fold content.
  destruct (Py.eqb old_string new_string); simpl negb; cbv iota.
  - reflexivity.
  - destruct old_string; reflexivity.
Qed.

Lemma edit_existing_file w file_path old_string new_string ts description raw mt :
  let full := full_path abspath file_path in
  let content := universal_newlines raw in
  wf_tree w ->
  fs w !! full = Some (File raw mt) ->
  Py.endswith (lit ".ipynb") full = false ->
  passes_freshness ts full mt = true ->
  old_string <> [] ->
  old_string <> new_string ->
  run_body file_path old_string new_string ts description w
  = match resolve_old_string content old_string with
    | None => (Ok (msg_not_found, ts), w)
    | Some old' =>
        if negb (Py.eqb old' []) && (1 <? Py.count content old')
        then (Ok (msg_ambiguous (Py.count content old'), ts), w)
        else if Py.eqb old' [] && negb (Py.eqb old' new_string)
        then (Raise (ValueError (lit "empty separator")), w)
        else
          let updated := Py.replace_first content old' new_string in
          let stored := normalize_line_endings updated (line_endings_of raw) in
          let w2 := World (<[full := File stored (now w)]> (fs w)) (now w) (commits w) in
          let '(success, message) := commit_result w2 full description in
          (Ok (msg_edited full (get_edit_snippet content old' new_string)
                 (if success then git_committed description else git_failed message),
               record_read ts full (now w)),
           World (fs w2) (now w) (commits w ++ [(full, description)]))
    end.
Proof.
  intros full content Hwf Hfile Hnb Hfresh Hne Hdiff.
  destruct (wf_tree_file _ _ _ _ Hwf Hfile) as [Hbase Hdir].
  unfold edit_file_body. fold full.
  unfold debug_string_comparison.
  rewrite (proj2 (eqb_false _ _) Hdiff). cbn [negb andb].
  rewrite (proj2 (eqb_false _ _) Hne). cbn [negb andb].
  rewrite !(bind_Ok _ _ _ _ _ (exists_present _ _ _ Hfile)). cbn [negb andb].
  rewrite Hnb.
  assert (Hgate : truthy ts && negb (has_entry ts full) = false).
  { unfold passes_freshness in Hfresh. destruct (truthy ts); [|reflexivity].
    simpl in *. apply andb_true_iff in Hfresh as [-> _]. reflexivity. }
  rewrite Hgate.
  erewrite bind_Ok; cycle 1.
  { instantiate (1 := w). instantiate (1 := false).
    unfold passes_freshness in Hfresh. destruct (truthy ts); [|reflexivity].
    simpl in Hfresh. apply andb_true_iff in Hfresh as [_ H].
    rewrite (bind_Ok _ _ _ _ _ (exists_present _ _ _ Hfile)).
    rewrite (bind_Ok _ _ _ _ _ (stat_mtime_file _ _ _ _ Hfile)).
    unfold ret. f_equal. f_equal. apply Z.ltb_ge, Z.leb_le, H. }
  cbv iota. unfold detect_file_encoding.
  rewrite (bind_Ok _ _ _ _ _ (detect_line_endings_file _ _ _ _ Hfile)).
  rewrite (bind_Ok _ _ _ _ _ (read_text_file _ _ _ _ Hfile)). fold content.
  destruct (resolve_old_string content old_string) as [old'|]; [|reflexivity].
  destruct (negb (Py.eqb old' []) && (1 <? Py.count content old')) eqn:Hamb; [reflexivity|].
  unfold bind at 1. rewrite (apply_edit_file _ _ _ _ _ _ Hfile). fold content.
  assert (Hrest : forall patch,
    (let '(_, updated_file) := (patch : list hunk, Py.replace_first content old' new_string) in
     makedirs (dirname full) ;;;
     write_text_content full updated_file (lit "utf-8") (line_endings_of raw) ;;;
     read_file_timestamps <-
       (match ts with
        | Some _ => t <- stat_mtime full ;; ret (record_read ts full t)
        | None => ret ts
        end) ;;
     c <- commit_changes commit_result full description ;;
     let '(success, message) := c in
     ret (msg_edited full (get_edit_snippet content old' new_string)
            (if (success : bool) then git_committed description else git_failed message),
          read_file_timestamps)) w
    = (let updated := Py.replace_first content old' new_string in
       let stored := normalize_line_endings updated (line_endings_of raw) in
       let w2 := World (<[full := File stored (now w)]> (fs w)) (now w) (commits w) in
       let '(success, message) := commit_result w2 full description in
       (Ok (msg_edited full (get_edit_snippet content old' new_string)
              (if success then git_committed description else git_failed message),
            record_read ts full (now w)),
        World (fs w2) (now w) (commits w ++ [(full, description)])))).
  { intros patch. cbv zeta iota beta.
    rewrite (bind_Ok _ _ _ _ _ (makedirs_present _ _ (length (dirname full)) Hwf Hdir
                                 : makedirs (dirname full) w = _)).
    unfold write_text_content.
    rewrite (bind_Ok _ _ _ _ _ (write_text_existing _ _ _ _ _ Hwf Hfile)).
    erewrite bind_Ok; cycle 1.
    { destruct ts as [m|].
      - erewrite bind_Ok; [reflexivity|].
        unfold stat_mtime. simpl. rewrite lookup_insert_eq. reflexivity.
      - unfold ret. simpl. reflexivity. }
    unfold bind, commit_changes. simpl.
    destruct (commit_result _ full description) as [success message].
    destruct ts; reflexivity. }
  destruct (Py.eqb old' new_string) eqn:Hsame.
  - rewrite andb_false_r. exact (Hrest []).
  - rewrite andb_true_r. destruct old' as [|c old']; [reflexivity|].
    exact (Hrest [hunk_of content (c :: old') new_string]).
Qed.

End Flow.

(* ===================================================================== *)
(** * Creating a file *)
(* ===================================================================== *)

Section Creation.

Variable abspath : str -> str.
Variable get_edit_snippet : str -> str -> str -> str.
Variable commit_result : world -> str -> str -> bool * str.

Lemma basename_split p : split p = (dirname p, basename p).
Proof.
  unfold dirname, basename, split. destruct (cut_last_slash p). reflexivity.
Qed.



End Creation.

(* ===================================================================== *)
(** * Properties of every run *)
(* ===================================================================== *)

Section EveryRun.

Variable abspath : str -> str.
Variable get_edit_snippet : str -> str -> str -> str.

(** A property of the outcome of a computation follows from the same
    property of its continuation. *)
Lemma bind_post {A B} (Q : outcome B * world -> Prop) (m : M A) (k : A -> M B) w :
  (forall e w', Q (Raise e, w')) ->
  (forall a w', Q (k a w')) ->
  Q (bind m k w).
Proof.
  intros Hr Hk. unfold bind. destruct (m w) as [[a|e] w']; [apply Hk | apply Hr].
Qed.

(** The same for a relation between two runs that start alike. *)
Lemma bind_rel {A B} (R : outcome B * world -> outcome B * world -> Prop)
    (m : M A) (k1 k2 : A -> M B) w :
  (forall e w', R (Raise e, w') (Raise e, w')) ->
  (forall a w', R (k1 a w') (k2 a w')) ->
  R (bind m k1 w) (bind m k2 w).
Proof.
  intros Hr Hk. unfold bind. destruct (m w) as [[a|e] w']; [apply Hk | apply Hr].
Qed.



Lemma same_but_note_raise note1 note2 e w :
  same_but_note note1 note2 (Raise e, w) (Raise e, w).
Proof. split; reflexivity. Qed.

Lemma same_but_note_ret note1 note2 msg ts w :
  Py.startswith (lit "Successfully edited") msg = false ->
  same_but_note note1 note2 (ret (msg, ts) w) (ret (msg, ts) w).
Proof. intros H. split; [reflexivity|]. simpl. auto. Qed.

Ltac walk_same :=
  repeat first
    [ apply same_but_note_ret; reflexivity
    | apply bind_rel; [intros ? ?; apply same_but_note_raise | intros ? ?]
    | match goal with
      | |- same_but_note _ _ ((if ?c then _ else _) _) _ => destruct c
      | |- same_but_note _ _ ((match ?x with Some _ => _ | None => _ end) _) _ => destruct x
      | |- same_but_note _ _ ((let '(_, _) := ?x in _) _) _ => destruct x
      end ].

(** Two runs of the body whose commit collaborators answer differently
    differ at most in the note on the commit. *)
Lemma edit_file_body_commit_note c1 c2 file_path old_string new_string ts description
    message1 message2 w :
  (forall w' p, c1 w' p description = (false, message1)) ->
  (forall w' p, c2 w' p description = (true, message2)) ->
  same_but_note (git_failed message1) (git_committed description)
    (edit_file_body abspath get_edit_snippet c1 file_path old_string new_string ts description w)
    (edit_file_body abspath get_edit_snippet c2 file_path old_string new_string ts description w).
Proof.
  intros H1 H2. unfold edit_file_body.
  set (full := full_path abspath file_path). clearbody full.
  walk_same.
  unfold bind, commit_changes, ret. rewrite H1, H2.
  split; [reflexivity|]. simpl. split; [reflexivity|]. right. eauto.
Qed.

End EveryRun.

(* ===================================================================== *)
(** * Plain paths, occurrences and windows *)
(* ===================================================================== *)

Lemma components_nonempty p : components p <> [].
Proof.
  destruct p as [|c p]; simpl; [discriminate|].
  destruct (Py.ch_eqb c slash); [discriminate|].
  destruct (components p); discriminate.
Qed.




Lemma find_at_start x post : Py.find (x ++ post) x = Some 0.
Proof.
  destruct (x ++ post) eqn:E; simpl.
  - destruct x; [reflexivity | discriminate].
  - rewrite <- E, startswith_app. reflexivity.
Qed.

Lemma contains_infix pre x post : Py.contains x (pre ++ x ++ post) = true.
Proof.
  unfold Py.contains. induction pre as [|c pre IH].
  - simpl. rewrite find_at_start. reflexivity.
  - cbn [app Py.find].
    destruct (Py.startswith x (c :: pre ++ x ++ post)); [reflexivity|].
    destruct (Py.find (pre ++ x ++ post) x); [reflexivity | discriminate].
Qed.

Lemma join_cons sep x l : l <> [] -> Py.join sep (x :: l) = x ++ sep ++ Py.join sep l.
Proof. destruct l; [congruence | reflexivity]. Qed.

Lemma join_app sep a b :
  a <> [] -> b <> [] -> Py.join sep (a ++ b) = Py.join sep a ++ sep ++ Py.join sep b.
Proof.
  intros Ha Hb. induction a as [|x a IH]; [congruence|].
  destruct a as [|y a].
  - simpl app. rewrite join_cons by assumption. reflexivity.
  - rewrite <- app_comm_cons, !join_cons by discriminate.
    rewrite IH by discriminate. rewrite <- !app_assoc. reflexivity.
Qed.


(** The text of a run of consecutive pieces lies inside the joined
    text. *)
Lemma join_slice_infix sep (l : list str) i n :
  1 <= n -> i + n <= length l ->
  exists pre post, Py.join sep l = pre ++ Py.join sep (slice l i n) ++ post.
Proof.
  intros Hn Hlen. unfold slice.
  set (A := take i l). set (B := take n (drop i l)). set (C := drop n (drop i l)).
  replace (Py.join sep l) with (Py.join sep (A ++ B ++ C))
    by (subst A B C; rewrite !take_drop; reflexivity).
  assert (HB : B <> []).
  { intros E. apply (f_equal length) in E. subst B.
    rewrite length_take, length_drop in E. simpl in E. lia. }
  destruct A as [|a A], C as [|c C].
  - exists [], []. rewrite !app_nil_r. reflexivity.
  - exists [], (sep ++ Py.join sep (c :: C)). simpl app.
    rewrite join_app by (assumption || discriminate). reflexivity.
  - exists (Py.join sep (a :: A) ++ sep), []. rewrite !app_nil_r.
    rewrite join_app by (assumption || discriminate). rewrite <- app_assoc. reflexivity.
  - exists (Py.join sep (a :: A) ++ sep), (sep ++ Py.join sep (c :: C)).
    rewrite join_app; [|discriminate | intros E; apply app_eq_nil in E; tauto].
    rewrite (join_app sep B) by (assumption || discriminate).
    rewrite <- !app_assoc. reflexivity.
Qed.

(** [split] and [join] on line feeds are a round trip. *)
Lemma join_lines s : Py.join nl (Py.lines s) = s.
Proof.
  unfold Py.lines, nl. induction s as [|c s IH]; [reflexivity|].
  cbn [Py.split_from Py.startswith length Nat.sub].
  pose proof (split_from_nonempty 0 s [LF]) as Hne.
  destruct (Py.ch_eqb LF c && true) eqn:E.
  - rewrite andb_true_r in E. apply ch_eqb_true in E as <-.
    rewrite join_cons by assumption. rewrite IH. reflexivity.
  - destruct (Py.split_from 0 s [LF]) as [|h t]; [congruence|].
    destruct t as [|h' t]; simpl in *; congruence.
Qed.

Lemma find_window_bounds content_lines old_lines i :
  find_window content_lines old_lines = Some i ->
  window_matches content_lines old_lines i = true
  /\ i + length old_lines <= length content_lines.
Proof.
  unfold find_window. intros H. pose proof (find_some _ _ H) as [Hin Hm].
  split; [assumption|]. apply in_seq in Hin. lia.
Qed.




(** Two prefixes of one text start alike. *)
Lemma prefix_clash a p b q msg :
  Py.startswith (a :: p) msg = true -> Py.startswith (b :: q) msg = true -> a = b.
Proof.
  destruct msg as [|c msg]; simpl; [discriminate|].
  intros Ha Hb. apply andb_true_iff in Ha as [Ha _]. apply andb_true_iff in Hb as [Hb _].
  apply ch_eqb_true in Ha, Hb. congruence.
Qed.

(* ===================================================================== *)
(** * The answers of the checks *)
(* ===================================================================== *)

Section Answers.

Variable abspath : str -> str.
Variable get_edit_snippet : str -> str -> str -> str.
Variable commit_result : world -> str -> str -> bool * str.

Local Abbreviation run := (edit_file_content abspath get_edit_snippet commit_result).








End Answers.

(* ===================================================================== *)
(** * The properties of the specification *)
(* ===================================================================== *)

Lemma demo_tree_wf raw : wf_tree (Demo.tree raw).
Proof.
  unfold wf_tree, Demo.tree. simpl.
  apply map_Forall_insert_2; [reflexivity|].
  apply map_Forall_insert_2; [reflexivity|].
  apply map_Forall_empty.
Qed.

(** C6. A call whose [old_string] equals its [new_string] returns the
    no-change message; the world, with its file tree and its log of
    commit invocations, and the timestamp table are as before. *)
Theorem no_change_is_a_no_op
    abspath get_edit_snippet commit_result file_path s ts description w :
  edit_file_content abspath get_edit_snippet commit_result
    file_path s s ts description w
  = ((msg_no_change, ts), w).
Proof.
  unfold edit_file_content, edit_file_body, debug_string_comparison.
  rewrite eqb_refl. reflexivity.
Qed.

(** ** Replacing the one occurrence *)




Lemma resolve_exact content old_string :
  Py.contains old_string content = true ->
  resolve_old_string content old_string = Some old_string.
Proof.
  intros H. unfold resolve_old_string. rewrite H, andb_false_r. reflexivity.
Qed.


(** ** Line endings *)

Lemma ch_eqb_sym a b : Py.ch_eqb a b = Py.ch_eqb b a.
Proof.
  destruct (Py.ch_eqb a b) eqn:E.
  - apply ch_eqb_true in E as ->. symmetry. apply ch_eqb_true. reflexivity.
  - destruct (Py.ch_eqb b a) eqn:E'; [|reflexivity].
    apply ch_eqb_true in E' as ->.
    assert (Py.ch_eqb a a = true) by (apply ch_eqb_true; reflexivity). congruence.
Qed.








(** The scenario of the specification: on the file [foo\nbar\n],
    replacing [bar] by [baz] leaves [foo\nbaz\n] and the hunk
    [{oldStart: 2, oldLines: 1, newStart: 2, newLines: 1}]. *)
Example scenario_foo_bar :
  let w := Demo.tree Demo.foo_bar in
  let r := Demo.edit Demo.f_txt (lit "bar") (lit "baz") None (lit "fix") w in
  fs (snd r) !! Demo.f_txt = Some (File (lit "foo" ++ nl ++ lit "baz" ++ nl) 10)
  /\ apply_edit Demo.f_txt (lit "bar") (lit "baz") w
     = (Ok ([Hunk 2 1 2 1 [lit "-bar"; lit "+baz"]], lit "foo" ++ nl ++ lit "baz" ++ nl), w).
Proof. split; vm_compute; reflexivity. Qed.


(** ** Creating a file *)


Lemma demo_nb_creatable raw : dir_creatable (Demo.tree raw) (lit "/nb").
Proof.
  eapply (dir_missing _ _ (lit "/") (lit "nb"));
    [reflexivity | reflexivity | discriminate | discriminate | discriminate |].
  apply dir_present. reflexivity.
Qed.




(** The directories [os.makedirs] made in the witness above. *)
Example creation_makes_the_directories :
  let r := Demo.edit Demo.todo_txt [] (lit "buy milk" ++ crlf) None (lit "add")
             (Demo.tree Demo.foo_bar) in
  fs (snd r) !! lit "/docs" = Some (Dir 10)
  /\ fs (snd r) !! lit "/docs/notes" = Some (Dir 10)
  /\ fs (snd r) !! Demo.todo_txt = Some (File (lit "buy milk" ++ nl) 10)
  /\ fs (snd r) !! Demo.f_txt = Some (File Demo.foo_bar 5)
  /\ commits (snd r) = [].
Proof. vm_compute. repeat split; reflexivity. Qed.



(** The creation in the witness above does succeed. *)
Example notebook_is_created_without_a_read :
  let ts := Demo.read_f_at 5 in
  let r := Demo.edit Demo.analysis_ipynb [] (lit "{}") ts (lit "new notebook")
             (Demo.tree Demo.foo_bar) in
  fst r = (lit "Successfully created /nb/analysis.ipynb", ts)
  /\ fs (snd r) !! Demo.analysis_ipynb = Some (File (lit "{}") 10).
Proof. vm_compute. split; reflexivity. Qed.


(** ** The commit collaborator *)

(** C7. Let the commit collaborator fail (answer [(False, message)]).
    Compared with the same call under a collaborator that succeeds, the
    world the call leaves (file tree, clock, commit log) and the
    timestamp table are the same, so nothing that was written is rolled
    back or altered; and the answer is either the same answer, which is
    then not one of a finished edit, or it is the "Successfully edited"
    answer with the same path and snippet, in which the note
    "Changes committed to git" is replaced by "Failed to commit changes
    to git" and the collaborator's message. *)
Theorem commit_failure_is_only_reported
    abspath get_edit_snippet commit_result
    file_path old_string new_string ts description message w :
  (forall w' p, commit_result w' p description = (false, message)) ->
  let r := edit_file_content abspath get_edit_snippet commit_result
             file_path old_string new_string ts description w in
  let r0 := edit_file_content abspath get_edit_snippet (fun _ _ _ => (true, []))
              file_path old_string new_string ts description w in
  snd r = snd r0
  /\ snd (fst r) = snd (fst r0)
  /\ ((fst (fst r) = fst (fst r0)
       /\ Py.startswith (lit "Successfully edited") (fst (fst r0)) = false)
      \/ exists path snippet,
           fst (fst r0) = lit "Successfully edited " ++ path ++ nl ++ nl
                          ++ lit "Here's a snippet of the edited file:" ++ nl ++ snippet
                          ++ nl ++ nl ++ lit "Changes committed to git: " ++ description
           /\ fst (fst r) = lit "Successfully edited " ++ path ++ nl ++ nl
                            ++ lit "Here's a snippet of the edited file:" ++ nl ++ snippet
                            ++ nl ++ nl ++ lit "Failed to commit changes to git: " ++ message).
Proof.
  intros Hfail r r0.
  pose proof (edit_file_body_commit_note abspath get_edit_snippet
                commit_result (fun _ _ _ => (true, []))
                file_path old_string new_string ts description message [] w
                Hfail (fun _ _ => eq_refl)) as [Hw Hres].
  subst r r0. unfold edit_file_content.
  destruct (edit_file_body _ _ commit_result _ _ _ _ _ w) as [[[m1 t1]|e1] w1];
    destruct (edit_file_body _ _ (fun _ _ _ => (true, [])) _ _ _ _ _ w) as [[[m2 t2]|e2] w2];
    simpl in *; try contradiction.
  - destruct Hres as [-> Hmsg]. repeat split; try assumption.
    destruct Hmsg as [[-> Hno] | (path & snippet & -> & ->)]; [left; auto | right].
    exists path, snippet. split; reflexivity.
  - subst. repeat split. left. split; reflexivity.
Qed.

Lemma commit_failure_is_only_reported_witness :
  let w := Demo.tree Demo.foo_bar in
  let r := edit_file_content Demo.abspath Demo.snippet Demo.commit_ko
             Demo.f_txt (lit "bar") (lit "baz") None (lit "fix") w in
  let r0 := edit_file_content Demo.abspath Demo.snippet (fun _ _ _ => (true, []))
              Demo.f_txt (lit "bar") (lit "baz") None (lit "fix") w in
  snd r = snd r0
  /\ snd (fst r) = snd (fst r0)
  /\ ((fst (fst r) = fst (fst r0)
       /\ Py.startswith (lit "Successfully edited") (fst (fst r0)) = false)
      \/ exists path snippet,
           fst (fst r0) = lit "Successfully edited " ++ path ++ nl ++ nl
                          ++ lit "Here's a snippet of the edited file:" ++ nl ++ snippet
                          ++ nl ++ nl ++ lit "Changes committed to git: " ++ lit "fix"
           /\ fst (fst r) = lit "Successfully edited " ++ path ++ nl ++ nl
                            ++ lit "Here's a snippet of the edited file:" ++ nl ++ snippet
                            ++ nl ++ nl ++ lit "Failed to commit changes to git: "
                            ++ lit "nothing to commit").
Proof.
  apply (commit_failure_is_only_reported Demo.abspath Demo.snippet Demo.commit_ko
           Demo.f_txt (lit "bar") (lit "baz") None (lit "fix") (lit "nothing to commit")
           (Demo.tree Demo.foo_bar)).
  intros w' p. reflexivity.
Defined.

(** The failing commit of the witness above: the file is written, the
    invocation is logged, and the answer carries the failure note. *)
Example failed_commit_keeps_the_edit :
  let r := edit_file_content Demo.abspath Demo.snippet Demo.commit_ko
             Demo.f_txt (lit "bar") (lit "baz") None (lit "fix") (Demo.tree Demo.foo_bar) in
  fs (snd r) !! Demo.f_txt = Some (File (lit "foo" ++ nl ++ lit "baz" ++ nl) 10)
  /\ commits (snd r) = [(Demo.f_txt, lit "fix")]
  /\ fst (fst r) = lit "Successfully edited /f.txt" ++ nl ++ nl
                   ++ lit "Here's a snippet of the edited file:" ++ nl ++ lit "baz"
                   ++ nl ++ nl ++ lit "Failed to commit changes to git: nothing to commit".
Proof. vm_compute. repeat split; reflexivity. Qed.

(** ** The shape of the answers *)


(** ** The matcher *)

Section Matcher.

Variable abspath : str -> str.
Variable get_edit_snippet : str -> str -> str -> str.
Variable commit_result : world -> str -> str -> bool * str.

Local Abbreviation run := (edit_file_content abspath get_edit_snippet commit_result).


(** Two or more counted occurrences: the ambiguity error with the
    count; the fallback is not consulted and nothing changes. *)
Lemma ambiguous_when_counted_twice w file_path old_string new_string ts description raw mt :
  let full := full_path abspath file_path in
  let content := universal_newlines raw in
  wf_tree w ->
  fs w !! full = Some (File raw mt) ->
  Py.endswith (lit ".ipynb") full = false ->
  passes_freshness ts full mt = true ->
  old_string <> [] ->
  old_string <> new_string ->
  2 <= Py.count content old_string ->
  resolve_old_string content old_string = Some old_string
  /\ run file_path old_string new_string ts description w
     = ((msg_ambiguous (Py.count content old_string), ts), w).
Proof.
  intros full content Hwf Hfile Hnb Hfresh Hne Hdiff Hcount.
  destruct (count_pos_contains content old_string Hne ltac:(lia)) as [i Hfind].
  assert (Hin : Py.contains old_string content = true)
    by (unfold Py.contains; rewrite Hfind; reflexivity).
  split; [apply resolve_exact, Hin|].
  unfold edit_file_content.
  rewrite (edit_existing_file abspath get_edit_snippet commit_result
             w file_path old_string new_string ts description raw mt
             Hwf Hfile Hnb Hfresh Hne Hdiff).
  fold content. rewrite (resolve_exact _ _ Hin).
  rewrite (proj2 (eqb_false _ _) Hne).
  replace (1 <? Py.count content old_string) with true
    by (symmetry; apply Nat.ltb_lt; lia).
  reflexivity.
Qed.

End Matcher.

(** The scenario of the specification: in [bar\nbar\n] the text [bar]
    is ambiguous, with two matches, and the file is unchanged. *)
Example scenario_bar_bar :
  let w := Demo.tree (lit "bar" ++ nl ++ lit "bar" ++ nl) in
  Demo.edit Demo.f_txt (lit "bar") (lit "baz") None (lit "fix") w
  = ((msg_ambiguous 2, None), w).
Proof. vm_compute. reflexivity. Qed.

(** C2, at the failing input.  The file [/f.txt] holds ["foo  \nbar"]
    and the caller expects ["o\nbar"]: the text occurs nowhere, and no
    window of file lines equals the expected lines after right-trimming,
    yet the trimmed text is a substring of the trimmed content.  The
    call does not answer with the not-found error: it answers
    "Successfully edited", rewrites the file with the content it had
    (stamping it anew) and invokes the commit collaborator. *)
Theorem fallback_without_window_answers_success :
  let w := Demo.tree Demo.foo_blanks_bar in
  let old_string := lit "o" ++ nl ++ lit "bar" in
  let r := Demo.edit Demo.f_txt old_string (lit "X") None (lit "fix") w in
  positions Demo.foo_blanks_bar old_string = []
  /\ Py.count Demo.foo_blanks_bar old_string = 0
  /\ Py.contains (Py.join nl (map Py.rstrip (Py.lines old_string)))
                 (Py.join nl (map Py.rstrip (Py.lines Demo.foo_blanks_bar))) = true
  /\ find_window (Py.lines Demo.foo_blanks_bar) (Py.lines old_string) = None
  /\ fst (fst r) <> msg_not_found
  /\ Py.startswith (lit "Successfully edited") (fst (fst r)) = true
  /\ fs (snd r) !! Demo.f_txt = Some (File Demo.foo_blanks_bar 10)
  /\ commits (snd r) = [(Demo.f_txt, lit "fix")].
Proof. vm_compute. repeat split; try reflexivity. discriminate. Qed.

(** ** The whitespace-tolerant fallback *)

(** [List.find] over a range returns the first index that passes. *)
Lemma find_seq_first (f : nat -> bool) a n i :
  List.find f (seq a n) = Some i ->
  f i = true /\ forall j, a <= j -> j < i -> f j = false.
Proof.
  revert a. induction n as [|n IH]; intros a; simpl; [discriminate|].
  destruct (f a) eqn:Ha.
  - intros [= <-]. split; [assumption | intros; lia].
  - intros H. destruct (IH _ H) as [Hi Hj]. split; [assumption|].
    intros j Hle Hlt. destruct (decide (j = a)) as [->|]; [assumption|].
    apply Hj; lia.
Qed.



(** Why the window's text has to occur at one position only: in
    ["ba \na \na"] the expected ["a\na"] matches the window of lines
    2 and 3, whose text ["a \na"] is counted once by [str.count] but
    also starts inside line 1; the first occurrence is the one
    replaced, and line 1 is cut. *)
Example window_text_can_start_earlier :
  let raw := lit "ba " ++ nl ++ lit "a " ++ nl ++ lit "a" in
  let content := universal_newlines raw in
  let old_string := lit "a" ++ nl ++ lit "a" in
  let actual := lit "a " ++ nl ++ lit "a" in
  let r := Demo.edit Demo.f_txt old_string (lit "X") None (lit "fix") (Demo.tree raw) in
  find_window (Py.lines content) (Py.lines old_string) = Some 1
  /\ Py.count content actual = 1
  /\ positions content actual = [1; 4]
  /\ fs (snd r) !! Demo.f_txt = Some (File (lit "bX " ++ nl ++ lit "a") 10).
Proof. vm_compute. repeat split; reflexivity. Qed.

(** The case the specification asks to verify: the file has trailing
    blanks the caller's text lacks, and it is the file's untrimmed
    line that is replaced. *)
Example scenario_trailing_blanks :
  let r := Demo.edit Demo.f_txt (lit "bar" ++ nl) (lit "X" ++ nl) None (lit "fix")
             (Demo.tree (lit "foo" ++ nl ++ lit "bar  " ++ nl)) in
  fs (snd r) !! Demo.f_txt = Some (File (lit "foo" ++ nl ++ lit "X" ++ nl) 10).
Proof. vm_compute. reflexivity. Qed.


(** ** The freshness guard *)

Section Freshness.

Variable abspath : str -> str.
Variable get_edit_snippet : str -> str -> str -> str.
Variable commit_result : world -> str -> str -> bool * str.

Local Abbreviation run := (edit_file_content abspath get_edit_snippet commit_result).



End Freshness.

(** The scenario of the specification: read at 3, modified at 5, the
    edit fails as stale and the file is unchanged. *)
Example scenario_stale :
  let w := Demo.tree Demo.foo_bar in
  Demo.edit Demo.f_txt (lit "bar") (lit "baz") (Demo.read_f_at 3) (lit "fix") w
  = ((msg_stale, Demo.read_f_at 3), w).
Proof. vm_compute. reflexivity. Qed.

(** C4, at the failing input.  The caller supplies a timestamp table
    that is empty, so it has no entry for [/f.txt].  The call does not
    answer with the never-read error: it edits the file, answers
    "Successfully edited", and records the path in the table it was
    given. *)
Theorem empty_table_is_not_checked :
  let w := Demo.tree Demo.foo_bar in
  let ts : timestamps := Some ∅ in
  let r := Demo.edit Demo.f_txt (lit "bar") (lit "baz") ts (lit "fix") w in
  has_entry ts Demo.f_txt = false
  /\ fst (fst r) <> msg_never_read
  /\ Py.startswith (lit "Successfully edited") (fst (fst r)) = true
  /\ fs (snd r) !! Demo.f_txt = Some (File (lit "foo" ++ nl ++ lit "baz" ++ nl) 10)
  /\ snd (fst r) = Some {[ Demo.f_txt := 10%Z ]}.
Proof. vm_compute. repeat split; try reflexivity. discriminate. Qed.

(** C9, at the failing input.  For the content ["a\r\nb\nc"], which
    mixes both line breaks, and the style CRLF, [write_text_content]
    stores ["a\r\r\nb\r\nc"]: the [\r\n] of the content has become
    [\r\r\n], whereas normalising every line break to [\r\n] gives
    ["a\r\nb\r\nc"].  Under LF the same content is stored as
    ["a\nb\nc"]. *)
Theorem crlf_is_doubled_on_mixed_content :
  let w := Demo.tree [] in
  let written style := fs (snd (write_text_content Demo.f_txt Demo.mixed (lit "utf-8") style w))
                       !! Demo.f_txt in
  written (lit "CRLF")
  = Some (File (lit "a" ++ [CR] ++ crlf ++ lit "b" ++ crlf ++ lit "c") 10)
  /\ spec_normalize_line_breaks (eol_of (lit "CRLF")) Demo.mixed
     = lit "a" ++ crlf ++ lit "b" ++ crlf ++ lit "c"
  /\ normalize_line_endings Demo.mixed (lit "CRLF")
     <> spec_normalize_line_breaks (eol_of (lit "CRLF")) Demo.mixed
  /\ written (lit "LF") = Some (File (lit "a" ++ nl ++ lit "b" ++ nl ++ lit "c") 10).
Proof. vm_compute. repeat split; try reflexivity. discriminate. Qed.

(** ** Success and failure in the answers *)




(* ===================================================================== *)
(** * Line endings on the way to the file and back *)
(* ===================================================================== *)

Lemma replace_nl_crlf_step c s :
  Py.replace_from 0 (c :: s) nl crlf
  = if Py.ch_eqb c LF then CR :: LF :: Py.replace_from 0 s nl crlf
    else c :: Py.replace_from 0 s nl crlf.
Proof.
  unfold nl, crlf. cbn [Py.replace_from Py.startswith length Nat.sub app].
  rewrite (ch_eqb_sym LF c), andb_true_r. reflexivity.
Qed.


(** X1. Under CRLF, whatever the content, no line feed is written without
    a carriage return right before it. *)
Theorem crlf_style_writes_no_bare_line_feed content :
  lf_after_cr false (normalize_line_endings content (lit "CRLF")) = true.
Proof.
  change (normalize_line_endings content (lit "CRLF"))
    with (Py.replace_from 0 content nl crlf).
  generalize false. induction content as [|c s IH]; intros b; [reflexivity|].
  rewrite replace_nl_crlf_step. destruct (Py.ch_eqb c LF) eqn:E.
  - cbn [lf_after_cr]. change (Py.ch_eqb CR LF) with false.
    change (Py.ch_eqb CR CR) with true. change (Py.ch_eqb LF LF) with true.
    change (Py.ch_eqb LF CR) with false. cbn [andb]. apply IH.
  - cbn [lf_after_cr]. rewrite E. cbn [andb]. apply IH.
Qed.








(* ===================================================================== *)
(** * The patch of [apply_edit] *)
(* ===================================================================== *)

Lemma split_hd_prefix s sep :
  exists rest, s = hd [] (Py.split_from 0 s sep) ++ rest.
Proof.
  induction s as [|c s [rest IH]]; simpl; [exists []; reflexivity|].
  destruct (Py.startswith sep (c :: s)); [exists (c :: s); reflexivity|].
  pose proof (split_from_nonempty 0 s sep).
  destruct (Py.split_from 0 s sep) as [|h t]; [congruence|].
  simpl in *. exists rest. congruence.
Qed.

Lemma count_nl_app a b :
  Py.count (a ++ b) nl = Py.count a nl + Py.count b nl.
Proof.
  unfold Py.count, nl. induction a as [|c a IH]; [reflexivity|].
  cbn [app Py.count_from Py.startswith length Nat.sub].
  destruct (Py.ch_eqb LF c && true); rewrite IH; reflexivity.
Qed.

Lemma hunk_of_shape content old_string new_string :
  let h := hunk_of content old_string new_string in
  oldStart h = newStart h
  /\ 1 <= oldStart h <= length (Py.lines content)
  /\ oldLines h = Py.count old_string nl + 1
  /\ newLines h = Py.count new_string nl + 1
  /\ length (hunk_lines h) = oldLines h + newLines h
  /\ (forall l, l ∈ take (oldLines h) (hunk_lines h) -> Py.startswith (lit "-") l = true)
  /\ (forall l, l ∈ drop (oldLines h) (hunk_lines h) -> Py.startswith (lit "+") l = true).
Proof.
  unfold hunk_of. cbn [oldStart newStart oldLines newLines hunk_lines].
  repeat split.
  - lia.
  - destruct (split_hd_prefix content old_string) as [rest Hrest].
    rewrite (length_lines content). rewrite Hrest at 2. rewrite count_nl_app. lia.
  - apply length_lines.
  - apply length_lines.
  - rewrite length_app, !length_map. reflexivity.
  - intros l. rewrite take_app_length' by (rewrite length_map; reflexivity).
    intros Hl. apply list_elem_of_fmap in Hl as (x & -> & _). reflexivity.
  - intros l. rewrite drop_app_length' by (rewrite length_map; reflexivity).
    intros Hl. apply list_elem_of_fmap in Hl as (x & -> & _). reflexivity.
Qed.

(** [apply_edit] by the kind of node at the path. *)
Lemma apply_edit_cases p old_string new_string w :
  apply_edit p old_string new_string w
  = match fs w !! p with
    | Some (Dir _) => (Raise (IsADirectoryError p), w)
    | other =>
        let content := match other with
                       | Some (File raw _) => universal_newlines raw
                       | _ => []
                       end in
        if Py.eqb old_string new_string
        then (Ok ([], Py.replace_first content old_string new_string), w)
        else match old_string with
             | [] => (Raise (ValueError (lit "empty separator")), w)
             | _ :: _ => (Ok ([hunk_of content old_string new_string],
                              Py.replace_first content old_string new_string), w)
             end
    end.
Proof.
  destruct (fs w !! p) as [[raw mt|t]|] eqn:Hp.
  - apply (apply_edit_file _ _ _ _ _ _ Hp).
  - unfold apply_edit. rewrite (bind_Ok _ _ _ _ _ (exists_present _ _ _ Hp)).
    unfold bind, read_text, read_bytes, bind. rewrite Hp. reflexivity.
  - unfold apply_edit. rewrite (bind_Ok _ _ _ _ _ (exists_absent _ _ Hp)).
    unfold bind at 1. unfold ret at 1.
    destruct (Py.eqb old_string new_string); cbn [negb].
    + reflexivity.
    + destruct old_string; reflexivity.
Qed.

(** X4. Whenever [apply_edit] returns, it has left the world as it was
    (it only reads), and its patch is empty if the two texts are equal
    and otherwise a single hunk: [oldStart] and [newStart] are the same
    line number, at least 1; [oldLines] and [newLines] are one more than
    the number of line feeds of the old and of the new text; and the
    hunk lists that many lines marked [-] followed by that many marked
    [+]. *)
Theorem apply_edit_patch_shape p old_string new_string w patch updated w' :
  apply_edit p old_string new_string w = (Ok (patch, updated), w') ->
  w' = w
  /\ (old_string = new_string -> patch = [])
  /\ (old_string <> new_string ->
      exists h, patch = [h]
        /\ oldStart h = newStart h /\ 1 <= oldStart h
        /\ oldLines h = Py.count old_string nl + 1
        /\ newLines h = Py.count new_string nl + 1
        /\ length (hunk_lines h) = oldLines h + newLines h
        /\ (forall l, l ∈ take (oldLines h) (hunk_lines h) -> Py.startswith (lit "-") l = true)
        /\ (forall l, l ∈ drop (oldLines h) (hunk_lines h) -> Py.startswith (lit "+") l = true)).
Proof.
  rewrite apply_edit_cases.
  assert (Hcase : forall content,
    (if Py.eqb old_string new_string
     then (Ok ([], Py.replace_first content old_string new_string), w)
     else match old_string with
          | [] => (Raise (ValueError (lit "empty separator")), w)
          | _ :: _ => (Ok ([hunk_of content old_string new_string],
                           Py.replace_first content old_string new_string), w)
          end) = (Ok (patch, updated), w') ->
    w' = w
    /\ (old_string = new_string -> patch = [])
    /\ (old_string <> new_string ->
        exists h, patch = [h]
          /\ oldStart h = newStart h /\ 1 <= oldStart h
          /\ oldLines h = Py.count old_string nl + 1
          /\ newLines h = Py.count new_string nl + 1
          /\ length (hunk_lines h) = oldLines h + newLines h
          /\ (forall l, l ∈ take (oldLines h) (hunk_lines h) -> Py.startswith (lit "-") l = true)
          /\ (forall l, l ∈ drop (oldLines h) (hunk_lines h) -> Py.startswith (lit "+") l = true))).
  { intros content. destruct (Py.eqb old_string new_string) eqn:E.
    - apply eqb_true in E. intros [= <- _ <-].
      split; [reflexivity|]. split; [reflexivity | congruence].
    - apply eqb_false in E. destruct old_string as [|c old_string]; [discriminate|].
      intros [= <- _ <-]. split; [reflexivity|]. split; [congruence|].
      intros _. exists (hunk_of content (c :: old_string) new_string).
      split; [reflexivity|].
      destruct (hunk_of_shape content (c :: old_string) new_string)
        as (H1 & H2 & H3 & H4 & H5 & H6 & H7).
      repeat split; try assumption. lia. }
  destruct (fs w !! p) as [[raw mt|t]|]; [apply Hcase | discriminate | apply Hcase].
Qed.

Lemma apply_edit_patch_shape_witness :
  let w := Demo.tree Demo.foo_bar in
  let old_string := lit "bar" in
  let new_string := lit "b" ++ nl ++ lit "z" in
  let patch := [Hunk 2 1 2 2 [lit "-bar"; lit "+b"; lit "+z"]] in
  w = w
  /\ (old_string = new_string -> patch = [])
  /\ (old_string <> new_string ->
      exists h, patch = [h]
        /\ oldStart h = newStart h /\ 1 <= oldStart h
        /\ oldLines h = Py.count old_string nl + 1
        /\ newLines h = Py.count new_string nl + 1
        /\ length (hunk_lines h) = oldLines h + newLines h
        /\ (forall l, l ∈ take (oldLines h) (hunk_lines h) -> Py.startswith (lit "-") l = true)
        /\ (forall l, l ∈ drop (oldLines h) (hunk_lines h) -> Py.startswith (lit "+") l = true)).
Proof.
  apply (apply_edit_patch_shape Demo.f_txt (lit "bar") (lit "b" ++ nl ++ lit "z")
           (Demo.tree Demo.foo_bar) _ (lit "foo" ++ nl ++ lit "b" ++ nl ++ lit "z" ++ nl)).
  reflexivity.
Defined.

(** X5. On an existing regular file, for a non-empty [old_string] different
    from [new_string], the hunk of [apply_edit] points into the file:
    [oldStart] lies between 1 and the number of lines of the text read.
    If [old_string] occurs, [oldStart] is the line of its first
    occurrence; if it does not occur, the text comes back unchanged and
    [oldStart] is the last line. *)
Theorem apply_edit_hunk_points_into_the_file p old_string new_string w raw mt :
  let content := universal_newlines raw in
  fs w !! p = Some (File raw mt) ->
  old_string <> [] ->
  old_string <> new_string ->
  exists h,
    apply_edit p old_string new_string w
    = (Ok ([h], Py.replace_first content old_string new_string), w)
    /\ 1 <= oldStart h <= length (Py.lines content)
    /\ (forall i, Py.find content old_string = Some i ->
                  oldStart h = Py.count (take i content) nl + 1)
    /\ (Py.contains old_string content = false ->
        Py.replace_first content old_string new_string = content
        /\ oldStart h = length (Py.lines content)).
Proof.
  intros content Hp Hne Hdiff.
  exists (hunk_of content old_string new_string).
  rewrite apply_edit_cases, Hp. fold content.
  rewrite (proj2 (eqb_false _ _) Hdiff).
  destruct old_string as [|c old_string]; [congruence|].
  split; [reflexivity|]. split; [apply hunk_of_shape|]. split.
  - intros i Hi. unfold hunk_of. cbn [oldStart].
    rewrite (split_hd_find _ _ _ Hne Hi). reflexivity.
  - unfold Py.contains. destruct (Py.find content (c :: old_string)) eqn:F; [discriminate|].
    intros _. split; [apply replace_first_absent, F|].
    unfold hunk_of. cbn [oldStart]. rewrite (split_absent _ _ F). cbn [hd].
    symmetry. apply length_lines.
Qed.

Lemma apply_edit_hunk_points_into_the_file_witness :
  let content := universal_newlines Demo.foo_bar in
  exists h,
    apply_edit Demo.f_txt (lit "zzz") (lit "baz") (Demo.tree Demo.foo_bar)
    = (Ok ([h], Py.replace_first content (lit "zzz") (lit "baz")), Demo.tree Demo.foo_bar)
    /\ 1 <= oldStart h <= length (Py.lines content)
    /\ (forall i, Py.find content (lit "zzz") = Some i ->
                  oldStart h = Py.count (take i content) nl + 1)
    /\ (Py.contains (lit "zzz") content = false ->
        Py.replace_first content (lit "zzz") (lit "baz") = content
        /\ oldStart h = length (Py.lines content)).
Proof.
  apply (apply_edit_hunk_points_into_the_file Demo.f_txt (lit "zzz") (lit "baz")
           (Demo.tree Demo.foo_bar) Demo.foo_bar 5).
  - reflexivity.
  - discriminate.
  - discriminate.
Defined.

Lemma replace_first_nil old_string new_string :
  old_string <> [] -> Py.replace_first [] old_string new_string = [].
Proof. destruct old_string; [congruence | reflexivity]. Qed.

(** X6. When nothing exists at a plainly spelled path, [apply_edit]
    works on the empty text: for a non-empty [old_string] different
    from [new_string] the updated text is empty, and the hunk starts at
    line 1. *)
Theorem apply_edit_without_a_file p old_string new_string w :
  plain_path p = true ->
  fs w !! p = None ->
  old_string <> [] ->
  old_string <> new_string ->
  exists h,
    apply_edit p old_string new_string w = (Ok ([h], []), w)
    /\ oldStart h = 1 /\ newStart h = 1.
Proof.
  intros _ Hp Hne Hdiff. exists (hunk_of [] old_string new_string).
  rewrite apply_edit_cases, Hp. cbv zeta.
  rewrite (proj2 (eqb_false _ _) Hdiff), (replace_first_nil _ _ Hne).
  destruct old_string; [congruence|]. repeat split.
Qed.

Lemma apply_edit_without_a_file_witness :
  exists h,
    apply_edit Demo.todo_txt (lit "bar") (lit "baz") (Demo.tree Demo.foo_bar)
    = (Ok ([h], []), Demo.tree Demo.foo_bar)
    /\ oldStart h = 1 /\ newStart h = 1.
Proof.
  apply (apply_edit_without_a_file Demo.todo_txt (lit "bar") (lit "baz")
           (Demo.tree Demo.foo_bar)).
  - reflexivity.
  - reflexivity.
  - discriminate.
  - discriminate.
Defined.

(** X7. With an empty [old_string] and a non-empty [new_string], on a
    plainly spelled path, [apply_edit] raises
    [ValueError("empty separator")] from [content.split(old_string)],
    unless the path is a directory (then the read raises first); the
    world is as before. *)
Theorem apply_edit_empty_old_string_raises p new_string w :
  plain_path p = true ->
  new_string <> [] ->
  is_dir_in w p = false ->
  apply_edit p [] new_string w = (Raise (ValueError (lit "empty separator")), w).
Proof.
  intros _ Hnew Hdir. rewrite apply_edit_cases. unfold is_dir_in in Hdir.
  assert (E : Py.eqb [] new_string = false) by (apply eqb_false; congruence).
  destruct (fs w !! p) as [[raw mt|t]|]; try discriminate; cbv zeta; rewrite E; reflexivity.
Qed.

Lemma apply_edit_empty_old_string_raises_witness :
  apply_edit Demo.f_txt [] (lit "baz") (Demo.tree Demo.foo_bar)
  = (Raise (ValueError (lit "empty separator")), Demo.tree Demo.foo_bar).
Proof.
  apply (apply_edit_empty_old_string_raises Demo.f_txt (lit "baz") (Demo.tree Demo.foo_bar)).
  - reflexivity.
  - discriminate.
  - reflexivity.
Defined.

(* ===================================================================== *)
(** * What the calls leave alone *)
(* ===================================================================== *)

Section Respects.

Variable R : world -> world -> Prop.
Hypothesis R_refl : forall w, R w w.
Hypothesis R_trans : forall a b c, R a b -> R b c -> R a c.

Lemma respects_ret {A} (a : A) : respects R (ret a).
Proof. intros w. apply R_refl. Qed.

Lemma respects_raise {A} e : respects R (@raise A e).
Proof. intros w. apply R_refl. Qed.

Lemma respects_get {A} (f : world -> A) : respects R (get f).
Proof. intros w. apply R_refl. Qed.

Lemma respects_bind {A B} (m : M A) (k : A -> M B) :
  respects R m -> (forall a, respects R (k a)) -> respects R (bind m k).
Proof.
  intros Hm Hk w. unfold bind. specialize (Hm w).
  destruct (m w) as [[a|e] w1]; simpl in *; [|assumption].
  eapply R_trans; [eassumption | apply Hk].
Qed.

Lemma respects_try_except {A} (m : M A) handled h :
  respects R m -> (forall e, respects R (h e)) -> respects R (try_except m handled h).
Proof.
  intros Hm Hh w. unfold try_except. specialize (Hm w).
  destruct (m w) as [[a|e] w1]; simpl in *; [assumption|].
  destruct (handled e); [|assumption].
  eapply R_trans; [eassumption | apply Hh].
Qed.

Lemma respects_readonly {A} (m : M A) : respects eq m -> respects R m.
Proof. intros Hm w. rewrite <- (Hm w). apply R_refl. Qed.

(** [os.makedirs] respects whatever [os.mkdir] respects. *)
Lemma respects_makedirs_depth n name :
  (forall p, respects R (mkdir p)) -> respects R (makedirs_depth n name).
Proof.
  intros Hmkdir. revert name. induction n as [|n IH]; intros name;
    rewrite makedirs_depth_unfold; destruct (makedirs_split name) as [head tail].
  all: apply respects_bind; [apply respects_get|]; intros head_exists.
  all: apply respects_bind.
  all: try (intros [|]; [apply respects_ret|];
            apply respects_try_except; [apply Hmkdir|]; intros e;
            apply respects_bind; [apply respects_get|]; intros [|];
            [apply respects_ret | apply respects_raise]).
  all: destruct head as [|hc head]; try apply respects_ret.
  all: destruct tail as [|tc tail]; try apply respects_ret.
  all: destruct head_exists; try apply respects_ret.
  all: apply respects_bind; [|intros; apply respects_ret].
  - apply respects_raise.
  - apply respects_try_except; [apply IH | intros; apply respects_ret].
Qed.

(** A property of the rest of a computation carries over a step that
    respects [R]. *)
Lemma bind_inv {A B} (Q : outcome B * world -> Prop) (m : M A) (k : A -> M B) w0 w :
  respects R m ->
  R w0 w ->
  (forall e w', R w0 w' -> Q (Raise e, w')) ->
  (forall a w', R w0 w' -> Q (k a w')) ->
  Q (bind m k w).
Proof.
  intros Hm Hw Hr Hk. unfold bind. specialize (Hm w).
  destruct (m w) as [[a|e] w']; simpl in Hm; [apply Hk | apply Hr];
    eapply R_trans; eassumption.
Qed.

End Respects.

(** The calls that only read. *)
Lemma readonly_exists p : respects eq (exists_ p).
Proof. intros w. reflexivity. Qed.

Lemma readonly_stat_mtime p : respects eq (stat_mtime p).
Proof. intros w. unfold stat_mtime. destruct (fs w !! p) as [[]|]; reflexivity. Qed.

Lemma readonly_read_bytes p : respects eq (read_bytes p).
Proof. intros w. unfold read_bytes. destruct (fs w !! p) as [[]|]; reflexivity. Qed.

Lemma readonly_read_text p : respects eq (read_text p).
Proof.
  intros w. unfold read_text, bind, ret. pose proof (readonly_read_bytes p w).
  destruct (read_bytes p w) as [[]]; simpl in *; congruence.
Qed.

Lemma readonly_listdir d : respects eq (listdir d).
Proof. intros w. unfold listdir. destruct (fs w !! d) as [[]|]; reflexivity. Qed.

Lemma readonly_detect_line_endings p : respects eq (detect_line_endings p).
Proof.
  intros w. unfold detect_line_endings, bind, ret. pose proof (readonly_read_bytes p w).
  destruct (read_bytes p w) as [[raw|e] w']; simpl in *; [|congruence].
  destruct (Py.contains crlf raw); simpl; congruence.
Qed.

Lemma readonly_find_similar_file p : respects eq (find_similar_file p).
Proof.
  intros w. unfold find_similar_file, bind, exists_, get, ret.
  destruct (fs w !! dirname p); simpl; [|reflexivity].
  pose proof (readonly_listdir (dirname p) w).
  destruct (listdir (dirname p) w) as [[names|e] w']; simpl in *; congruence.
Qed.

Lemma readonly_apply_edit p old_string new_string :
  respects eq (apply_edit p old_string new_string).
Proof.
  intros w. rewrite apply_edit_cases.
  destruct (fs w !! p) as [[raw mt|t]|]; cbv zeta;
    try reflexivity; destruct (Py.eqb old_string new_string); try reflexivity;
    destruct old_string; reflexivity.
Qed.

Lemma same_commits_refl w : same_commits w w.
Proof. reflexivity. Qed.

Lemma same_commits_trans a b c : same_commits a b -> same_commits b c -> same_commits a c.
Proof. unfold same_commits. congruence. Qed.

Lemma only_touches_refl p w : only_touches p w w.
Proof. intros q _. left. reflexivity. Qed.

Lemma only_touches_trans p a b c :
  only_touches p a b -> only_touches p b c -> only_touches p a c.
Proof.
  intros Hab Hbc q Hq. specialize (Hab q Hq). specialize (Hbc q Hq).
  destruct Hbc as [E | (Hnone & t & Ht)].
  - rewrite E. exact Hab.
  - destruct Hab as [E | (Hnone' & t' & Ht')]; [|congruence].
    right. split; [congruence | eauto].
Qed.

Lemma mkdir_same_commits p : respects same_commits (mkdir p).
Proof.
  intros w. unfold mkdir.
  destruct (fs w !! p); [reflexivity|]. destruct (fs w !! dirname p) as [[]|]; reflexivity.
Qed.

Lemma mkdir_only_touches p' p : respects (only_touches p') (mkdir p).
Proof.
  intros w. unfold mkdir.
  destruct (fs w !! p) eqn:Hp; [apply only_touches_refl|].
  destruct (fs w !! dirname p) as [[]|]; try apply only_touches_refl.
  intros q _. simpl. destruct (decide (q = p)) as [->|Hne].
  - right. rewrite lookup_insert_eq. eauto.
  - left. apply lookup_insert_ne. congruence.
Qed.

Lemma write_text_same_commits p data : respects same_commits (write_text p data).
Proof.
  intros w. unfold write_text.
  destruct (basename p); [reflexivity|].
  destruct (fs w !! p) as [[]|]; try reflexivity;
    destruct (fs w !! dirname p) as [[]|]; reflexivity.
Qed.

Lemma write_text_only_touches p data : respects (only_touches p) (write_text p data).
Proof.
  intros w. unfold write_text.
  destruct (basename p); [apply only_touches_refl|].
  destruct (fs w !! p) as [[]|]; try apply only_touches_refl;
    destruct (fs w !! dirname p) as [[]|]; try apply only_touches_refl;
    intros q Hq; left; simpl; apply lookup_insert_ne; congruence.
Qed.

Lemma commit_changes_only_touches commit_result p' p description :
  respects (only_touches p') (commit_changes commit_result p description).
Proof. intros w q _. left. reflexivity. Qed.

Ltac walk_respects refl trans :=
  repeat first
    [ apply (respects_ret _ refl)
    | apply (respects_readonly _ refl);
      first [ apply readonly_exists | apply readonly_stat_mtime | apply readonly_read_text
            | apply readonly_detect_line_endings | apply readonly_find_similar_file
            | apply readonly_apply_edit ]
    | apply (respects_bind _ trans); [|intros ?]
    | match goal with
      | |- respects _ (if ?c then _ else _) => destruct c
      | |- respects _ (match ?x with Some _ => _ | None => _ end) => destruct x
      | |- respects _ (let '(_, _) := ?x in _) => destruct x
      end ].

Section Frame.

Variable abspath : str -> str.
Variable get_edit_snippet : str -> str -> str -> str.
Variable commit_result : world -> str -> str -> bool * str.

Lemma edit_file_body_only_touches file_path old_string new_string ts description :
  respects (only_touches (full_path abspath file_path))
    (edit_file_body abspath get_edit_snippet commit_result
       file_path old_string new_string ts description).
Proof.
  unfold edit_file_body.
  set (full := full_path abspath file_path).
  walk_respects (only_touches_refl full) (only_touches_trans full).
  - apply (respects_makedirs_depth _ (only_touches_refl full) (only_touches_trans full)).
    intros p. apply mkdir_only_touches.
  - apply write_text_only_touches.
  - apply (respects_makedirs_depth _ (only_touches_refl full) (only_touches_trans full)).
    intros p. apply mkdir_only_touches.
  - apply write_text_only_touches.
  - apply commit_changes_only_touches.
Qed.

(** X8. Whatever [edit_file_content] answers to a request whose resolved
    path is plainly spelled (so that no other path names the same
    file), every path of the tree other than that path keeps the node
    it had, and the only nodes added elsewhere are directories at paths
    that were missing: no other file is written, altered or removed. *)
Theorem edit_touches_no_other_path file_path old_string new_string ts description w q :
  let full := full_path abspath file_path in
  let r := edit_file_content abspath get_edit_snippet commit_result
             file_path old_string new_string ts description w in
  plain_path full = true ->
  q <> full ->
  fs (snd r) !! q = fs w !! q
  \/ (fs w !! q = None /\ exists t, fs (snd r) !! q = Some (Dir t)).
Proof.
  intros full r _ Hq. subst r. unfold edit_file_content.
  pose proof (edit_file_body_only_touches file_path old_string new_string ts description w
                q Hq) as H.
  destruct (edit_file_body _ _ _ _ _ _ _ _ w) as [[[msg t]|e] w']; exact H.
Qed.

End Frame.

Lemma edit_touches_no_other_path_witness :
  let r := Demo.edit Demo.todo_txt [] (lit "buy milk") None (lit "add")
             (Demo.tree Demo.foo_bar) in
  (fs (snd r) !! Demo.f_txt = fs (Demo.tree Demo.foo_bar) !! Demo.f_txt
   \/ (fs (Demo.tree Demo.foo_bar) !! Demo.f_txt = None
       /\ exists t, fs (snd r) !! Demo.f_txt = Some (Dir t)))
  /\ fs (snd r) !! Demo.f_txt = Some (File Demo.foo_bar 5).
Proof.
  split.
  - apply (edit_touches_no_other_path Demo.abspath Demo.snippet Demo.commit_ok
             Demo.todo_txt [] (lit "buy milk") None (lit "add") (Demo.tree Demo.foo_bar)
             Demo.f_txt).
    + reflexivity.
    + discriminate.
  - vm_compute. reflexivity.
Defined.

(** A step that only reads does not move the world. *)
Lemma bind_readonly {A B} (Q : outcome B * world -> Prop) (m : M A) (k : A -> M B) w :
  respects eq m ->
  (forall e, Q (Raise e, w)) ->
  (forall a, Q (k a w)) ->
  Q (bind m k w).
Proof.
  intros Hm Hr Hk. unfold bind. specialize (Hm w).
  destruct (m w) as [[a|e] w']; simpl in Hm; subst w'; [apply Hk | apply Hr].
Qed.

Ltac solve_readonly :=
  solve [ walk_respects (@eq_refl world) (@eq_trans world) ].

Ltac walk_untouched :=
  repeat first
    [ match goal with
      | |- done_or_untouched _ _ (ret _ _) =>
          solve [left; reflexivity | right; split; reflexivity]
      end
    | apply bind_readonly; [solve_readonly | intros ?; exact I | intros ?]
    | apply bind_post; [intros ? ?; exact I | intros ? ?]
    | match goal with
      | |- done_or_untouched _ _ ((if ?c then _ else _) _) => destruct c
      | |- done_or_untouched _ _ ((match ?x with Some _ => _ | None => _ end) _) => destruct x
      | |- done_or_untouched _ _ ((let '(_, _) := ?x in _) _) => destruct x
      end ].

Section Untouched.

Variable abspath : str -> str.
Variable get_edit_snippet : str -> str -> str -> str.
Variable commit_result : world -> str -> str -> bool * str.

Lemma edit_file_body_done_or_untouched file_path old_string new_string ts description w :
  done_or_untouched w ts
    (edit_file_body abspath get_edit_snippet commit_result
       file_path old_string new_string ts description w).
Proof.
  unfold edit_file_body.
  set (full := full_path abspath file_path). clearbody full.
  walk_untouched.
Qed.

(** X9. An answer that begins neither with "Successfully" nor with
    "Error editing file:" (the errors the checks report, the
    already-exists and the no-change answers) comes with the world
    exactly as it was before the call (file tree, clock and commit
    log) and with the timestamp table as it was passed. *)
Theorem reported_errors_change_nothing file_path old_string new_string ts description w :
  let r := edit_file_content abspath get_edit_snippet commit_result
             file_path old_string new_string ts description w in
  Py.startswith (lit "Successfully") (fst (fst r)) = false ->
  Py.startswith (lit "Error editing file:") (fst (fst r)) = false ->
  snd r = w /\ snd (fst r) = ts.
Proof.
  intros r. subst r. unfold edit_file_content.
  pose proof (edit_file_body_done_or_untouched
                file_path old_string new_string ts description w) as H.
  unfold done_or_untouched in H.
  destruct (edit_file_body _ _ _ _ _ _ _ _ w) as [[[msg t]|e] w']; simpl in *.
  - intros Hs _. destruct H as [H | [-> ->]]; [congruence | split; reflexivity].
  - intros _ He. change (true = false) in He. discriminate.
Qed.

End Untouched.

Lemma reported_errors_change_nothing_witness :
  let w := Demo.tree Demo.foo_bar in
  let r := Demo.edit Demo.f_txt (lit "zzz") (lit "baz") (Demo.read_f_at 5) (lit "fix") w in
  fst (fst r) = msg_not_found /\ snd r = w /\ snd (fst r) = Demo.read_f_at 5.
Proof.
  split; [reflexivity|].
  apply (reported_errors_change_nothing Demo.abspath Demo.snippet Demo.commit_ok
           Demo.f_txt (lit "zzz") (lit "baz") (Demo.read_f_at 5) (lit "fix")
           (Demo.tree Demo.foo_bar)).
  - reflexivity.
  - reflexivity.
Defined.

Ltac walk_commits :=
  repeat first
    [ match goal with
      | Hc : same_commits _ ?w' |- commit_logged _ _ (ret (?msg, _) ?w') =>
          unfold commit_logged, ret; cbn [fst snd];
          change (Py.startswith (lit "Successfully edited") msg) with false;
          cbv iota; rewrite app_nil_r; exact Hc
      | Hc : same_commits _ ?w' |- commit_logged _ _ (Raise _, ?w') =>
          unfold commit_logged; cbn [fst snd]; rewrite app_nil_r; exact Hc
      end
    | eapply (bind_inv _ same_commits_trans);
      [ first [ solve [walk_respects same_commits_refl same_commits_trans]
              | apply (respects_makedirs_depth _ same_commits_refl same_commits_trans);
                intros ?; apply mkdir_same_commits
              | apply write_text_same_commits ]
      | eassumption
      | intros ? ? ?
      | intros ? ? ? ]
    | match goal with
      | |- commit_logged _ _ ((if ?c then _ else _) _) => destruct c
      | |- commit_logged _ _ ((match ?x with Some _ => _ | None => _ end) _) => destruct x
      | |- commit_logged _ _ ((let '(_, _) := ?x in _) _) => destruct x
      end ].

Section Commits.

Variable abspath : str -> str.
Variable get_edit_snippet : str -> str -> str -> str.
Variable commit_result : world -> str -> str -> bool * str.

Lemma edit_file_body_commit_logged file_path old_string new_string ts description w :
  commit_logged (commits w) (full_path abspath file_path, description)
    (edit_file_body abspath get_edit_snippet commit_result
       file_path old_string new_string ts description w).
Proof.
  unfold edit_file_body.
  set (full := full_path abspath file_path). clearbody full.
  assert (Hc : same_commits w w) by reflexivity.
  revert Hc. generalize w at 2 4. intros w0 Hc.
  walk_commits.
  unfold bind, commit_changes, commit_logged, ret.
  destruct (commit_result _ full description) as [success message].
  cbn [fst snd commits]. match goal with H : same_commits w ?x |- context [commits ?x] =>
    rewrite H end.
  reflexivity.
Qed.

(** X10. The commit collaborator is invoked exactly once by a call that
    answers "Successfully edited", with the resolved path and the
    description, and not at all by a call with any other answer:
    no error, no no-change answer and no file creation commits. *)
Theorem commit_is_invoked_by_a_finished_edit_only
    file_path old_string new_string ts description w :
  let r := edit_file_content abspath get_edit_snippet commit_result
             file_path old_string new_string ts description w in
  commits (snd r)
  = commits w ++ (if Py.startswith (lit "Successfully edited") (fst (fst r))
                  then [(full_path abspath file_path, description)] else []).
Proof.
  intros r. subst r. unfold edit_file_content.
  pose proof (edit_file_body_commit_logged
                file_path old_string new_string ts description w) as H.
  unfold commit_logged in H.
  destruct (edit_file_body _ _ _ _ _ _ _ _ w) as [[[msg t]|e] w']; simpl in *; exact H.
Qed.

End Commits.

(* ===================================================================== *)
(** * The window of the fallback *)
(* ===================================================================== *)


(** X11. The text the fallback takes from a window is in the file: whenever
    the window search returns a window, the untrimmed text of its lines
    is a substring of the content, so it is counted at least once and
    [replace] finds it. *)
Theorem window_text_occurs_in_the_content content old_string i :
  find_window (Py.lines content) (Py.lines old_string) = Some i ->
  let actual := Py.join nl (slice (Py.lines content) i (length (Py.lines old_string))) in
  Py.contains actual content = true
  /\ (actual <> [] -> 1 <= Py.count content actual).
Proof.
  intros Hwin actual.
  destruct (find_window_bounds _ _ _ Hwin) as [_ Hlen].
  assert (Hn : 1 <= length (Py.lines old_string)) by (rewrite length_lines; lia).
  destruct (join_slice_infix nl (Py.lines content) i _ Hn Hlen) as (pre & post & E).
  rewrite join_lines in E.
  assert (Hin : Py.contains actual content = true).
  { rewrite E. apply contains_infix. }
  split; [assumption|]. intros Hne.
  destruct (Py.count content actual) eqn:Hc; [|lia].
  apply (count_zero_iff _ _ Hne) in Hc. congruence.
Qed.

Lemma window_text_occurs_in_the_content_witness :
  let actual := Py.join nl (slice (Py.lines Demo.foo_blanks_bar) 0
                              (length (Py.lines (lit "foo" ++ nl ++ lit "bar")))) in
  actual = Demo.foo_blanks_bar
  /\ Py.contains actual Demo.foo_blanks_bar = true
  /\ (actual <> [] -> 1 <= Py.count Demo.foo_blanks_bar actual).
Proof.
  split; [reflexivity|].
  apply (window_text_occurs_in_the_content Demo.foo_blanks_bar
           (lit "foo" ++ nl ++ lit "bar") 0).
  reflexivity.
Defined.

Lemma nth_drop_add (l : list str) i j : nth (i + j) l [] = nth j (drop i l) [].
Proof.
  revert l. induction i as [|i IH]; intros l; [reflexivity|].
  destruct l as [|x l]; [destruct j; reflexivity|]. simpl. apply IH.
Qed.

Lemma map_rstrip_window (old_lines window : list str) :
  length old_lines <= length window ->
  (forall j, j < length old_lines ->
             Py.rstrip (nth j window []) = Py.rstrip (nth j old_lines [])) ->
  map Py.rstrip (take (length old_lines) window) = map Py.rstrip old_lines.
Proof.
  revert window. induction old_lines as [|o old_lines IH]; intros window Hlen H.
  - reflexivity.
  - destruct window as [|x window]; [simpl in Hlen; lia|]. simpl in *.
    f_equal.
    + apply (H 0). lia.
    + apply IH; [lia|]. intros j Hj. apply (H (S j)). lia.
Qed.

(** A window that matches makes the substring test on the trimmed
    texts pass: the trimmed lines of the window are the trimmed lines
    expected. *)
Lemma window_passes_the_pretest content_lines old_lines i :
  1 <= length old_lines ->
  find_window content_lines old_lines = Some i ->
  Py.contains (Py.join nl (map Py.rstrip old_lines))
              (Py.join nl (map Py.rstrip content_lines)) = true.
Proof.
  intros Hn Hwin. destruct (find_window_bounds _ _ _ Hwin) as [Hm Hlen].
  assert (Heq : map Py.rstrip (slice content_lines i (length old_lines))
                = map Py.rstrip old_lines).
  { unfold slice. apply map_rstrip_window.
    - rewrite length_drop. lia.
    - intros j Hj. rewrite <- nth_drop_add.
      unfold window_matches in Hm. rewrite forallb_forall in Hm.
      apply eqb_true. apply Hm. apply in_seq. lia. }
  rewrite <- Heq. unfold slice. rewrite <- firstn_map, <- skipn_map.
  destruct (join_slice_infix nl (map Py.rstrip content_lines) i (length old_lines) Hn)
    as (pre & post & E).
  { rewrite length_map. exact Hlen. }
  unfold slice in E. rewrite E. apply contains_infix.
Qed.

(** X12. The fallback never misses a window because of its substring
    pre-test: when a non-empty [old_string] does not occur in the
    content and some window of file lines matches it after
    right-trimming, the effective old text is the untrimmed text of
    the first such window. *)
Theorem fallback_takes_the_first_matching_window content old_string i :
  old_string <> [] ->
  Py.contains old_string content = false ->
  window_matches (Py.lines content) (Py.lines old_string) i = true ->
  i + length (Py.lines old_string) <= length (Py.lines content) ->
  exists k,
    k <= i
    /\ window_matches (Py.lines content) (Py.lines old_string) k = true
    /\ (forall j, j < k -> window_matches (Py.lines content) (Py.lines old_string) j = false)
    /\ resolve_old_string content old_string
       = Some (Py.join nl (slice (Py.lines content) k (length (Py.lines old_string)))).
Proof.
  intros Hne Hnot Hm Hlen.
  assert (Hn : 1 <= length (Py.lines old_string)) by (rewrite length_lines; lia).
  destruct (find_window (Py.lines content) (Py.lines old_string)) as [k|] eqn:Hwin.
  - exists k. destruct (find_seq_first _ _ _ _ Hwin) as [Hk Hfirst].
    split.
    { destruct (le_lt_dec k i) as [|Hlt]; [assumption|].
      rewrite (Hfirst i) in Hm by lia. discriminate. }
    split; [assumption|]. split; [intros j Hj; apply Hfirst; lia|].
    unfold resolve_old_string.
    rewrite (proj2 (eqb_false _ _) Hne), Hnot. cbn [negb andb].
    rewrite (window_passes_the_pretest _ _ _ Hn Hwin), Hwin. reflexivity.
  - exfalso. unfold find_window in Hwin.
    pose proof (find_none _ _ Hwin i) as Hnone.
    rewrite Hnone in Hm; [discriminate|]. apply in_seq. lia.
Qed.

Lemma fallback_takes_the_first_matching_window_witness :
  exists k,
    k <= 2
    /\ window_matches (Py.lines Demo.ab_twice) (Py.lines (lit "a" ++ nl ++ lit "b")) k = true
    /\ (forall j, j < k ->
          window_matches (Py.lines Demo.ab_twice) (Py.lines (lit "a" ++ nl ++ lit "b")) j = false)
    /\ resolve_old_string Demo.ab_twice (lit "a" ++ nl ++ lit "b")
       = Some (Py.join nl (slice (Py.lines Demo.ab_twice) k
                             (length (Py.lines (lit "a" ++ nl ++ lit "b"))))).
Proof.
  apply (fallback_takes_the_first_matching_window Demo.ab_twice (lit "a" ++ nl ++ lit "b") 2).
  - discriminate.
  - reflexivity.
  - reflexivity.
  - vm_compute. lia.
Defined.

(* ===================================================================== *)
(** * The checks of [edit_file_content], one by one *)
(* ===================================================================== *)

Section Checks.

Variable abspath : str -> str.
Variable get_edit_snippet : str -> str -> str -> str.
Variable commit_result : world -> str -> str -> bool * str.

Local Abbreviation run := (edit_file_content abspath get_edit_snippet commit_result).






(** X18. A finished edit refreshes the caller's timestamp: under the
    preconditions of an edit of an existing file, an answer
    "Successfully edited" comes with the file rewritten and stamped
    with the clock, and with a table (if one was passed) whose entry
    for the path is that stamp and whose other entries are as before;
    so the freshness checks of a next edit let the file through. *)
Theorem finished_edit_refreshes_the_timestamp
    w file_path old_string new_string ts description raw mt :
  let full := full_path abspath file_path in
  let r := run file_path old_string new_string ts description w in
  wf_tree w ->
  fs w !! full = Some (File raw mt) ->
  Py.endswith (lit ".ipynb") full = false ->
  passes_freshness ts full mt = true ->
  old_string <> [] ->
  old_string <> new_string ->
  Py.startswith (lit "Successfully edited") (fst (fst r)) = true ->
  (exists stored, fs (snd r) = <[full := File stored (now w)]> (fs w))
  /\ snd (fst r) = record_read ts full (now w)
  /\ passes_freshness (snd (fst r)) full (now w) = true.
Proof.
  intros full r Hwf Hfile Hnb Hfresh Hne Hdiff. subst r.
  unfold edit_file_content.
  rewrite (edit_existing_file abspath get_edit_snippet commit_result
             w file_path old_string new_string ts description raw mt
             Hwf Hfile Hnb Hfresh Hne Hdiff).
  fold full. cbv zeta.
  destruct (resolve_old_string (universal_newlines raw) old_string) as [old'|];
    [|discriminate].
  destruct (negb (Py.eqb old' []) && (1 <? Py.count (universal_newlines raw) old'));
    [discriminate|].
  destruct (Py.eqb old' [] && negb (Py.eqb old' new_string)); [discriminate|].
  destruct (commit_result _ full description) as [success message]. cbn [fst snd].
  intros _. split; [eauto|]. split; [reflexivity|].
  unfold passes_freshness, record_read, truthy, has_entry, get_entry.
  destruct ts as [m|]; [|reflexivity].
  rewrite lookup_insert_eq. simpl. rewrite Z.leb_refl. apply orb_true_r.
Qed.

End Checks.







Lemma finished_edit_refreshes_the_timestamp_witness :
  let w := Demo.tree Demo.foo_bar in
  let r := Demo.edit Demo.f_txt (lit "bar") (lit "baz") (Demo.read_f_at 5) (lit "fix") w in
  (exists stored, fs (snd r) = <[Demo.f_txt := File stored 10]> (fs w))
  /\ snd (fst r) = record_read (Demo.read_f_at 5) Demo.f_txt 10
  /\ passes_freshness (snd (fst r)) Demo.f_txt 10 = true.
Proof.
  apply (finished_edit_refreshes_the_timestamp Demo.abspath Demo.snippet Demo.commit_ok
           (Demo.tree Demo.foo_bar) Demo.f_txt (lit "bar") (lit "baz") (Demo.read_f_at 5)
           (lit "fix") Demo.foo_bar 5).
  - apply demo_tree_wf.
  - reflexivity.
  - reflexivity.
  - reflexivity.
  - discriminate.
  - discriminate.
  - reflexivity.
Defined.

(* ===================================================================== *)
(** * Paths that are not regular files *)
(* ===================================================================== *)

Section Edges.

Variable abspath : str -> str.
Variable get_edit_snippet : str -> str -> str -> str.
Variable commit_result : world -> str -> str -> bool * str.

Local Abbreviation run := (edit_file_content abspath get_edit_snippet commit_result).



End Edges.

(* ===================================================================== *)
(** * The suggestion for a missing file *)
(* ===================================================================== *)

(** Whatever the order of the listing, a suggestion taken from listed
    names is a path of the tree in the directory of the requested
    path. *)
Lemma first_similar_is_listed w p names s :
  canonical_names w ->
  (forall f, In f names -> In f (names_under w (dirname p))) ->
  first_similar p names = Some s ->
  (exists n, fs w !! s = Some n)
  /\ dirname s = dirname p
  /\ basename s <> basename p
  /\ Py.startswith (fst (splitext (basename p)) ++ [dot]) (basename s) = true.
Proof.
  intros Hcanon Hlisted. unfold first_similar.
  destruct (List.find _ _) as [f|] eqn:F; [|discriminate].
  intros [= <-].
  apply find_some in F as [Hin Hpred].
  apply andb_true_iff in Hpred as [Hstart Hother].
  apply negb_true_iff, eqb_false in Hother.
  apply Hlisted in Hin. unfold names_under in Hin.
  apply list_elem_of_In, list_elem_of_omap in Hin as ([k n] & Hk & Hg).
  apply elem_of_map_to_list in Hk. cbn [fst] in Hg.
  rewrite (basename_split k) in Hg.
  destruct (Py.eqb (dirname k) (dirname p)) eqn:Hdir; [|discriminate].
  destruct (Py.eqb (basename k) []); [discriminate|]. cbn [negb andb] in Hg.
  injection Hg as <-. apply eqb_true in Hdir.
  pose proof (Hcanon k n Hk) as Hjoin. cbn beta in Hjoin.
  rewrite <- Hdir, Hjoin.
  split; [eauto|]. split; [reflexivity|]. split; assumption.
Qed.

(** [find_similar_file] on an existing directory is the loop over the
    listing; it only reads. *)
Lemma find_similar_file_listing w p t :
  fs w !! dirname p = Some (Dir t) ->
  find_similar_file p w = (Ok (first_similar p (names_under w (dirname p))), w).
Proof.
  intros Hd. unfold find_similar_file.
  rewrite (bind_Ok _ _ _ _ _ (exists_present _ _ _ Hd)). cbn [negb].
  unfold bind, listdir. rewrite Hd. reflexivity.
Qed.


(** Without the directory of the path there is nothing to suggest and
    nothing is listed. *)
Lemma find_similar_file_without_directory w p :
  fs w !! dirname p = None -> find_similar_file p w = (Ok None, w).
Proof.
  intros H. unfold find_similar_file.
  rewrite (bind_Ok _ _ _ _ _ (exists_absent _ _ H)). reflexivity.
Qed.

(** X21. For a plainly spelled path in a tree whose names are canonical:
    on an existing directory [find_similar_file] only reads and
    returns what its loop finds in a listing of the directory; in
    whatever order the directory is listed, a path the loop suggests
    is a path of the tree in the directory of the requested path, under
    another name, which starts with the stem of the requested name and
    a dot; and when the directory of the requested path does not exist,
    nothing is listed and nothing suggested. *)
Theorem similar_file_is_an_existing_sibling w p :
  plain_path p = true ->
  canonical_names w ->
  (forall names s,
     Permutation names (names_under w (dirname p)) ->
     first_similar p names = Some s ->
     (exists n, fs w !! s = Some n)
     /\ dirname s = dirname p
     /\ basename s <> basename p
     /\ Py.startswith (fst (splitext (basename p)) ++ [dot]) (basename s) = true)
  /\ (forall t, fs w !! dirname p = Some (Dir t) ->
       exists names, Permutation names (names_under w (dirname p))
                     /\ find_similar_file p w = (Ok (first_similar p names), w))
  /\ (fs w !! dirname p = None -> find_similar_file p w = (Ok None, w)).
Proof.
  intros _ Hcanon. split; [|split].
  - intros names s Hperm. apply first_similar_is_listed; [exact Hcanon|].
    intros f Hin. apply (Permutation_in _ Hperm Hin).
  - intros t Hd. exists (names_under w (dirname p)).
    split; [reflexivity | apply (find_similar_file_listing _ _ _ Hd)].
  - apply find_similar_file_without_directory.
Qed.

Section Missing.

Variable abspath : str -> str.
Variable get_edit_snippet : str -> str -> str -> str.
Variable commit_result : world -> str -> str -> bool * str.

Local Abbreviation run := (edit_file_content abspath get_edit_snippet commit_result).


End Missing.

Lemma project_tree_canonical : canonical_names Project.tree.
Proof.
  unfold canonical_names, Project.tree. simpl.
  repeat (apply map_Forall_insert_2; [reflexivity|]).
  apply map_Forall_empty.
Qed.



Lemma similar_file_is_an_existing_sibling_witness :
  let w := Project.tree in
  let p := lit "/src/app.txt" in
  ((forall names s,
      Permutation names (names_under w (dirname p)) ->
      first_similar p names = Some s ->
      (exists n, fs w !! s = Some n)
      /\ dirname s = dirname p
      /\ basename s <> basename p
      /\ Py.startswith (fst (splitext (basename p)) ++ [dot]) (basename s) = true)
   /\ (forall t, fs w !! dirname p = Some (Dir t) ->
        exists names, Permutation names (names_under w (dirname p))
                      /\ find_similar_file p w = (Ok (first_similar p names), w))
   /\ (fs w !! dirname p = None -> find_similar_file p w = (Ok None, w)))
  /\ Permutation [lit "app.py"; lit "app.pyi"] (names_under w (dirname p))
  /\ first_similar p [lit "app.py"; lit "app.pyi"] = Some Project.app_py
  /\ first_similar p [lit "app.pyi"; lit "app.py"] = Some Project.app_pyi.
Proof.
  split; [|split; [|split; reflexivity]].
  - apply (similar_file_is_an_existing_sibling Project.tree (lit "/src/app.txt")).
    + reflexivity.
    + apply project_tree_canonical.
  - vm_compute. first [reflexivity | apply perm_swap].
Defined.


(* ===================================================================== *)
(** * What a call keeps of the tree and of the table *)
(* ===================================================================== *)

Lemma keeps_wf_refl w : keeps_wf w w.
Proof. intros H. exact H. Qed.

Lemma keeps_wf_trans a b c : keeps_wf a b -> keeps_wf b c -> keeps_wf a c.
Proof. unfold keeps_wf. auto. Qed.

Lemma grows_refl w : grows w w.
Proof. intros q. destruct (fs w !! q) as [[raw mt|t]|]; eauto. Qed.

Lemma grows_trans a b c : grows a b -> grows b c -> grows a c.
Proof.
  intros Hab Hbc q. specialize (Hab q). specialize (Hbc q).
  destruct (fs a !! q) as [[raw mt|t]|]; [| |exact I].
  - destruct Hab as (raw' & mt' & E). rewrite E in Hbc. exact Hbc.
  - rewrite Hab in Hbc. exact Hbc.
Qed.

(** Adding a node at a path that is not a directory keeps every
    directory. *)
Lemma is_dir_in_insert w p n d now' commits' :
  is_dir_in w p = false ->
  is_dir_in w d = true ->
  is_dir_in (World (<[p := n]> (fs w)) now' commits') d = true.
Proof.
  unfold is_dir_in. simpl. intros Hp Hd.
  destruct (decide (d = p)) as [->|Hne]; [congruence|].
  rewrite lookup_insert_ne by congruence. exact Hd.
Qed.

Lemma wf_tree_insert w p n now' commits' :
  wf_tree w ->
  is_dir_in w p = false ->
  is_dir_in w (dirname p) = true ->
  match n with File _ _ => basename p <> [] | Dir _ => True end ->
  wf_tree (World (<[p := n]> (fs w)) now' commits').
Proof.
  intros Hwf Hp Hd Hn. unfold wf_tree. cbn [fs].
  apply map_Forall_insert_2.
  - unfold node_ok. rewrite (is_dir_in_insert _ _ _ _ _ _ Hp Hd).
    destruct n; [|reflexivity]. apply negb_true_iff, eqb_false. exact Hn.
  - intros q m Hq. specialize (Hwf q m Hq). cbn beta in Hwf.
    unfold node_ok in *. apply andb_true_iff in Hwf as [H1 H2].
    rewrite (is_dir_in_insert _ _ _ _ _ _ Hp H1). exact H2.
Qed.

Lemma mkdir_keeps_wf p : respects keeps_wf (mkdir p).
Proof.
  intros w Hwf. unfold mkdir.
  destruct (fs w !! p) eqn:Hp; [exact Hwf|].
  destruct (fs w !! dirname p) as [[raw mt|t]|] eqn:Hd; try exact Hwf.
  cbn [snd]. apply wf_tree_insert; [exact Hwf | | | exact I].
  - unfold is_dir_in. rewrite Hp. reflexivity.
  - unfold is_dir_in. rewrite Hd. reflexivity.
Qed.

Lemma write_text_keeps_wf p data : respects keeps_wf (write_text p data).
Proof.
  intros w Hwf. unfold write_text.
  destruct (basename p) as [|c b] eqn:Hb; [exact Hwf|].
  destruct (fs w !! p) as [[raw mt|t]|] eqn:Hp; try exact Hwf;
    destruct (fs w !! dirname p) as [[raw' mt'|t']|] eqn:Hd; try exact Hwf;
    cbn [snd]; apply wf_tree_insert; try exact Hwf;
    unfold is_dir_in; rewrite ?Hp, ?Hd, ?Hb; try reflexivity; discriminate.
Qed.

Lemma mkdir_grows p : respects grows (mkdir p).
Proof.
  intros w. unfold mkdir.
  destruct (fs w !! p) eqn:Hp; [apply grows_refl|].
  destruct (fs w !! dirname p) as [[raw mt|t]|]; try apply grows_refl.
  intros q. cbn [snd fs]. destruct (decide (q = p)) as [->|Hne].
  - rewrite Hp. exact I.
  - rewrite lookup_insert_ne by congruence. apply grows_refl.
Qed.

Lemma write_text_grows p data : respects grows (write_text p data).
Proof.
  intros w. unfold write_text.
  destruct (basename p) as [|c b]; [apply grows_refl|].
  destruct (fs w !! p) as [[raw mt|t]|] eqn:Hp; try apply grows_refl;
    destruct (fs w !! dirname p) as [[raw' mt'|t']|]; try apply grows_refl;
    intros q; cbn [snd fs]; (destruct (decide (q = p)) as [->|Hne];
      [rewrite Hp, ?lookup_insert_eq; eauto
      |rewrite lookup_insert_ne by congruence; apply grows_refl]).
Qed.

Section Keeps.

Variable abspath : str -> str.
Variable get_edit_snippet : str -> str -> str -> str.
Variable commit_result : world -> str -> str -> bool * str.

Lemma commit_changes_keeps_wf p description :
  respects keeps_wf (commit_changes commit_result p description).
Proof. intros w Hwf. exact Hwf. Qed.

Lemma commit_changes_grows p description :
  respects grows (commit_changes commit_result p description).
Proof. intros w q. exact (grows_refl w q). Qed.

Lemma edit_file_body_keeps_wf file_path old_string new_string ts description :
  respects keeps_wf
    (edit_file_body abspath get_edit_snippet commit_result
       file_path old_string new_string ts description).
Proof.
  unfold edit_file_body.
  set (full := full_path abspath file_path).
  walk_respects keeps_wf_refl keeps_wf_trans.
  - apply (respects_makedirs_depth _ keeps_wf_refl keeps_wf_trans).
    intros p. apply mkdir_keeps_wf.
  - apply write_text_keeps_wf.
  - apply (respects_makedirs_depth _ keeps_wf_refl keeps_wf_trans).
    intros p. apply mkdir_keeps_wf.
  - apply write_text_keeps_wf.
  - apply commit_changes_keeps_wf.
Qed.

Lemma edit_file_body_grows file_path old_string new_string ts description :
  respects grows
    (edit_file_body abspath get_edit_snippet commit_result
       file_path old_string new_string ts description).
Proof.
  unfold edit_file_body.
  set (full := full_path abspath file_path).
  walk_respects grows_refl grows_trans.
  - apply (respects_makedirs_depth _ grows_refl grows_trans).
    intros p. apply mkdir_grows.
  - apply write_text_grows.
  - apply (respects_makedirs_depth _ grows_refl grows_trans).
    intros p. apply mkdir_grows.
  - apply write_text_grows.
  - apply commit_changes_grows.
Qed.

(** X23. Whatever [edit_file_content] is asked and answers, a well-formed
    tree is well formed afterwards: every node it leaves lies in a
    directory of the tree and every regular file has a name, also when
    the call stops half-way on an exception. *)
Theorem edit_keeps_the_tree_well_formed file_path old_string new_string ts description w :
  wf_tree w ->
  wf_tree (snd (edit_file_content abspath get_edit_snippet commit_result
                  file_path old_string new_string ts description w)).
Proof.
  intros Hwf. unfold edit_file_content.
  pose proof (edit_file_body_keeps_wf file_path old_string new_string ts description w Hwf)
    as H.
  destruct (edit_file_body _ _ _ _ _ _ _ _ w) as [[[msg t]|e] w']; exact H.
Qed.

(** X24. [edit_file_content] never removes a path and never changes the
    kind of a node: every directory is afterwards the directory it
    was, and every regular file (the edited one included) is still a
    regular file. *)
Theorem edit_never_removes_a_path file_path old_string new_string ts description w q :
  let r := edit_file_content abspath get_edit_snippet commit_result
             file_path old_string new_string ts description w in
  match fs w !! q with
  | Some (Dir t) => fs (snd r) !! q = Some (Dir t)
  | Some (File _ _) => exists raw mt, fs (snd r) !! q = Some (File raw mt)
  | None => True
  end.
Proof.
  intros r. subst r. unfold edit_file_content.
  pose proof (edit_file_body_grows file_path old_string new_string ts description w q) as H.
  destruct (edit_file_body _ _ _ _ _ _ _ _ w) as [[[msg t]|e] w']; exact H.
Qed.

(** A property of the value of a step carries over to the rest of the
    computation. *)
Lemma bind_post_val {A B} (P : A -> Prop) (Q : outcome B * world -> Prop)
    (m : M A) (k : A -> M B) w :
  (forall w0, match fst (m w0) with Ok a => P a | Raise _ => True end) ->
  (forall e w', Q (Raise e, w')) ->
  (forall a w', P a -> Q (k a w')) ->
  Q (bind m k w).
Proof.
  intros Hm Hr Hk. unfold bind. specialize (Hm w).
  destruct (m w) as [[a|e] w']; [apply Hk, Hm | apply Hr].
Qed.

Lemma edit_file_body_table file_path old_string new_string ts description w :
  table_kept_or_stamped ts (full_path abspath file_path)
    (edit_file_body abspath get_edit_snippet commit_result
       file_path old_string new_string ts description w).
Proof.
  unfold edit_file_body.
  set (full := full_path abspath file_path). clearbody full.
  repeat first
    [ match goal with
      | |- table_kept_or_stamped _ _ (ret (_, ts) _) => left; reflexivity
      | |- table_kept_or_stamped _ _ (bind (match ts with Some _ => _ | None => _ end) _ _) =>
          apply (bind_post_val (kept_or_stamped ts full));
          [ intros w0; destruct ts as [m|]; [|left; reflexivity];
            unfold bind, stat_mtime, ret;
            destruct (fs w0 !! full) as [[raw mt|t]|]; cbn [fst];
            try exact I; right; eexists; reflexivity
          | intros ? ?; exact I
          | intros ? ? ? ]
      | |- table_kept_or_stamped _ _ ((if ?c then _ else _) _) => destruct c
      | |- table_kept_or_stamped _ _ ((match ?x with Some _ => _ | None => _ end) _) =>
          destruct x
      | |- table_kept_or_stamped _ _ ((let '(_, _) := ?x in _) _) => destruct x
      | H : kept_or_stamped _ _ ?t |- table_kept_or_stamped _ _ (ret (_, ?t) _) => exact H
      end
    | apply bind_post; [intros ? ?; exact I | intros ? ?] ].
Qed.

(** X25. The timestamp table is only ever changed at the resolved path of
    the request: whatever the call answers, every other path has the
    entry it had (or still none), the entry of the path itself is
    never dropped, and no table appears where none was passed. *)
Theorem table_changes_at_the_path_only file_path old_string new_string ts description w :
  let full := full_path abspath file_path in
  let ts' := snd (fst (edit_file_content abspath get_edit_snippet commit_result
                         file_path old_string new_string ts description w)) in
  (ts = None -> ts' = None)
  /\ (has_entry ts full = true -> has_entry ts' full = true)
  /\ (forall q, q <> full ->
        has_entry ts' q = has_entry ts q /\ get_entry ts' q = get_entry ts q).
Proof.
  intros full ts'.
  assert (H : kept_or_stamped ts full ts').
  { subst ts'. unfold edit_file_content.
    pose proof (edit_file_body_table file_path old_string new_string ts description w) as H.
    unfold table_kept_or_stamped in H. fold full in H.
    destruct (edit_file_body _ _ _ _ _ _ _ _ w) as [[[msg t]|e] w']; cbn [fst snd] in *.
    - exact H.
    - left. reflexivity. }
  clearbody ts'. destruct H as [-> | [t ->]].
  - repeat split; auto.
  - destruct ts as [m|]; cbn [record_read has_entry get_entry].
    + split; [discriminate|]. split.
      * intros _. rewrite lookup_insert_eq. reflexivity.
      * intros q Hq. rewrite lookup_insert_ne by congruence. split; reflexivity.
    + repeat split; auto.
Qed.

End Keeps.

Lemma edit_keeps_the_tree_well_formed_witness :
  wf_tree (snd (Demo.edit Demo.todo_txt [] (lit "buy milk") None (lit "add")
                  (Demo.tree Demo.foo_bar))).
Proof.
  apply (edit_keeps_the_tree_well_formed Demo.abspath Demo.snippet Demo.commit_ok
           Demo.todo_txt [] (lit "buy milk") None (lit "add") (Demo.tree Demo.foo_bar)).
  apply demo_tree_wf.
Defined.

(* ===================================================================== *)
(** * The string methods and the host on small inputs *)
(* ===================================================================== *)

Example ex_find : Py.find (lit "foo bar") (lit "bar") = Some 4.
Proof. reflexivity. Qed.
Example ex_count_overlap : Py.count (lit "aaaa") (lit "aa") = 2.
Proof. reflexivity. Qed.
Example ex_count_empty : Py.count (lit "abc") [] = 4.
Proof. reflexivity. Qed.
Example ex_positions_overlap : positions (lit "aaa") (lit "aa") = [0; 1].
Proof. reflexivity. Qed.
Example ex_replace_first : Py.replace_first (lit "a-b-c") (lit "-") (lit "+") = lit "a+b-c".
Proof. reflexivity. Qed.
Example ex_replace_first_empty : Py.replace_first (lit "abc") [] (lit "X") = lit "Xabc".
Proof. reflexivity. Qed.
Example ex_replace : Py.replace (lit "aaa") (lit "aa") (lit "b") = lit "ba".
Proof. reflexivity. Qed.
Example ex_replace_empty : Py.replace (lit "ab") [] (lit "-") = lit "-a-b-".
Proof. reflexivity. Qed.
Example ex_split : Py.split (lit "a,b,,c") (lit ",") = Some [lit "a"; lit "b"; []; lit "c"].
Proof. reflexivity. Qed.
Example ex_split_absent : Py.split (lit "abc") (lit ",") = Some [lit "abc"].
Proof. reflexivity. Qed.
Example ex_split_wide : Py.split (lit "a<>b<>") (lit "<>") = Some [lit "a"; lit "b"; []].
Proof. reflexivity. Qed.
Example ex_split_empty_separator : Py.split (lit "abc") [] = None.
Proof. reflexivity. Qed.
Example ex_lines : Py.lines (lit "a" ++ nl) = [lit "a"; []].
Proof. reflexivity. Qed.
Example ex_join : Py.join (lit ", ") [lit "a"; lit "b"; lit "c"] = lit "a, b, c".
Proof. reflexivity. Qed.
Example ex_rstrip : Py.rstrip (lit " a b  " ++ [CR]) = lit " a b".
Proof. reflexivity. Qed.
Example ex_isspace :
  filter (fun n => Py.isspace (ascii_of_nat n) = true) (seq 0 256)
  = [9; 10; 11; 12; 13; 28; 29; 30; 31; 32; 133; 160].
Proof. vm_compute. reflexivity. Qed.
Example ex_str_of_nat : Py.str_of_nat 42 = lit "42".
Proof. reflexivity. Qed.
Example ex_universal_newlines :
  universal_newlines (lit "a" ++ crlf ++ lit "b" ++ [CR] ++ lit "c" ++ nl)
  = lit "a" ++ nl ++ lit "b" ++ nl ++ lit "c" ++ nl.
Proof. reflexivity. Qed.

Example ex_path_split :
  map Os.split [lit "/a/b"; lit "/a"; lit "/"; lit "//a"; lit "a"; []; lit "/a/b/"; lit "/a//b"]
  = [(lit "/a", lit "b"); (lit "/", lit "a"); (lit "/", []); (lit "//", lit "a");
     ([], lit "a"); ([], []); (lit "/a/b", []); (lit "/a", lit "b")].
Proof. reflexivity. Qed.
Example ex_splitext :
  map splitext [lit "b"; lit ".x"; lit "a.b.c"; lit "..a"; lit "a."]
  = [(lit "b", []); (lit ".x", []); (lit "a.b", lit ".c"); (lit "..a", []); (lit "a", lit ".")].
Proof. reflexivity. Qed.
Example ex_path_join :
  (join (lit "/a") (lit "b"), join (lit "/") (lit "b"), join [] (lit "b"), join (lit "/a/") (lit "b"))
  = (lit "/a/b", lit "/b", lit "b", lit "/a/b").
Proof. reflexivity. Qed.

(** [os.makedirs] below a regular file, and a path that is a
    directory. *)
Example ex_makedirs_below_a_file :
  fst (makedirs (lit "/f.txt/x/y") (Demo.tree [])) = Raise (NotADirectoryError (lit "/f.txt/x"))
  /\ fst (makedirs (lit "/f.txt") (Demo.tree [])) = Raise (FileExistsError (lit "/f.txt")).
Proof. vm_compute. split; reflexivity. Qed.
Example ex_edit_a_directory :
  fst (fst (Demo.edit (lit "/") (lit "a") (lit "b") None [] (Demo.tree [])))
  = lit "Error editing file: [Errno 21] Is a directory: '/'".
Proof. vm_compute. reflexivity. Qed.
Example ex_missing_file_hint :
  fst (fst (Demo.edit (lit "/f.md") (lit "a") (lit "b") None [] (Demo.tree [])))
  = lit "Error: File does not exist: /f.md Did you mean /f.txt?".
Proof. vm_compute. reflexivity. Qed.
Example ex_notebook :
  let w := World (<[lit "/n.ipynb" := File (lit "{}") 1]> (<[lit "/" := Dir 0]> ∅)) 10 [] in
  Demo.edit (lit "/n.ipynb") (lit "{") (lit "[") None [] w = ((msg_notebook, None), w).
Proof. vm_compute. reflexivity. Qed.
Example ex_never_read :
  let w := Demo.tree Demo.foo_bar in
  let ts : timestamps := Some {[ lit "/g.txt" := 3%Z ]} in
  Demo.edit Demo.f_txt (lit "bar") (lit "baz") ts [] w = ((msg_never_read, ts), w).
Proof. vm_compute. reflexivity. Qed.
Example ex_relative_path :
  fst (fst (Demo.edit (lit "f.txt") [] (lit "x") None [] (Demo.tree [])))
  = lit "Successfully created /work/f.txt".
Proof. vm_compute. reflexivity. Qed.
